(** * The connection supervisor of the tunnel agent

    A shallow embedding of [supervisor/tunnel.go] and [edgediscovery/dial.go]:
    the edge dialer, the error classifier that drives edge-address rotation,
    the per-slot protocol-fallback state and the slot worker [Serve].

    Conventions.
    - A Go value of interface type [error] is an [option error]; [None] is
      [nil].  The constructors of [error] are the dynamic types the code
      switches on.
    - [uint8] values are integers in [Z]; the one arithmetic operation on
      them ([++]) is written with its wrap-around.
    - Code that mutates through a pointer is a function from the old value to
      the new one; the slot worker threads one [state] record through the
      calls it makes.
    - Everything the code obtains from the network, the clock or another
      goroutine is an explicit input. *)

From Stdlib Require Import ZArith List String Bool Lia.
From stdpp Require Import base option gmap.
Import ListNotations.

Local Open Scope string_scope.
Local Open Scope Z_scope.

(** ** Errors *)

(** The dynamic types of the error values that reach the supervisor. *)
Inductive error : Type :=
  | errorString (s : string)                     (* errors.New, fmt.Errorf *)
  | contextCanceled                              (* context.Canceled *)
  | withMessage (cause : error) (msg : string)   (* errors.Wrap, errors.Wrapf *)
  | DialError (cause : error)                    (* edgediscovery.DialError *)
  | DupConnRegisterTunnelError                   (* connection.DupConnRegisterTunnelError *)
  | ServerRegisterTunnelError (Cause : error) (Permanent : bool)
  | EdgeQuicDialError (Cause : error)            (* *connection.EdgeQuicDialError *)
  | IdleTimeoutError                             (* *quic.IdleTimeoutError *)
  | TransportError (text : string)               (* *quic.TransportError *)
  | ReconnectSignal (Delay : Z)                  (* supervisor.ReconnectSignal *)
  | unrecoverableError (err : error)             (* supervisor.unrecoverableError *)
  | ConnectivityError (reachedMaxRetries : bool) (* *supervisor.ConnectivityError *).

(** [strings.Contains]. *)
Fixpoint Contains (s substr : string) : bool :=
  String.prefix substr s ||
  match s with
  | EmptyString => false
  | String _ s' => Contains s' substr
  end.

(** [fmt]'s [%t]. *)
Definition fmt_bool (b : bool) : string := if b then "true" else "false".

(** The [Error()] method.  [DialError], [unrecoverableError] and
    [ConnectivityError] are the methods of the sources; the text of the
    types declared in other packages is the one those packages print, and a
    [TransportError] carries its rendered text. *)
Fixpoint Error (e : error) : string :=
  match e with
  | errorString s => s
  | contextCanceled => "context canceled"
  | withMessage cause msg => msg ++ ": " ++ Error cause
  | DialError cause => Error cause
  | DupConnRegisterTunnelError =>
      "already connected to this server, trying another address"
  | ServerRegisterTunnelError Cause _ => Error Cause
  | EdgeQuicDialError Cause => "failed to dial to edge with quic: " ++ Error Cause
  | IdleTimeoutError => "timeout: no recent network activity"
  | TransportError text => text
  | ReconnectSignal _ => "reconnect signal"
  | unrecoverableError err => Error err
  | ConnectivityError reached =>
      "connectivity error - reached max retries: " ++ fmt_bool reached
  end.

(** [Unwrap()]: the wrappers of [errors.Wrap] and the QUIC dial error expose
    their cause to [errors.As]; [DialError] only has [Cause()] and
    [unrecoverableError] has neither. *)
Definition Unwrap (e : error) : option error :=
  match e with
  | withMessage cause _ => Some cause
  | EdgeQuicDialError Cause => Some Cause
  | _ => None
  end.

(** The error chain [errors.As] walks: the error, then what it unwraps to. *)
Fixpoint chain (e : error) : list error :=
  e :: match e with
       | withMessage cause _ => chain cause
       | EdgeQuicDialError Cause => chain Cause
       | _ => []
       end.

(** [errors.As(err, &target)]; [target] recognises the dynamic type of the
    variable the match is assigned to. *)
Definition errorsAs (target : error -> bool) (err : option error) : bool :=
  match err with
  | None => false
  | Some e => existsb target (chain e)
  end.

Definition isIdleTimeoutError (e : error) : bool :=
  match e with IdleTimeoutError => true | _ => false end.

Definition isTransportError (e : error) : bool :=
  match e with TransportError _ => true | _ => false end.

(** ** package edgediscovery *)

Module edgediscovery.

(** Operations the dialer performs on the TLS connection, in order. *)
Inductive ConnOp : Type :=
  | SetDeadline (t : option Z)          (* [None] is the zero [time.Time] *)
  | Handshake (under : option Z).       (* the deadline in force meanwhile *)

(** A [tls.Conn] over a dialled TCP connection. *)
Record Conn : Type := mkConn {
  remote : string;
  deadline : option Z;
  ops : list ConnOp
}.

Definition tlsClient (addr : string) : Conn :=
  {| remote := addr; deadline := None; ops := [] |}.

Definition setDeadline (t : option Z) (c : Conn) : Conn :=
  {| remote := remote c; deadline := t; ops := ops c ++ [SetDeadline t] |}.

(** What the environment answers to the dialer.  The dial functions
    receive the local address the dialer was bound to; [DialContext] also
    receives the timeout of the context derived for it. *)
Record Network : Type := mkNetwork {
  hasDialContext : bool;        (* the proxy dialer is context-aware *)
  DialContext : option string -> Z -> string -> option error;
  Dial : option string -> string -> option error;
  tlsHandshake : Conn -> option error;
  Now : Z
}.

Definition handshake (net : Network) (c : Conn) : Conn * option error :=
  ({| remote := remote c; deadline := deadline c;
      ops := ops c ++ [Handshake (deadline c)] |},
   tlsHandshake net c).

Definition newDialError (err : error) (message : string) : error :=
  DialError (withMessage err message).

Definition Cause (e : error) : option error :=
  match e with
  | DialError cause => Some cause
  | _ => None
  end.

Definition DialEdge (net : Network) (timeout : Z) (edgeTCPAddr : string)
    (localIP : option string) : option Conn * option error :=
  let LocalAddr := localIP in
  let err :=
    if hasDialContext net
    then DialContext net LocalAddr timeout edgeTCPAddr
    else Dial net LocalAddr edgeTCPAddr in
  match err with
  | Some err => (None, Some (newDialError err "DialContext error"))
  | None =>
      let tlsEdgeConn := tlsClient edgeTCPAddr in
      let tlsEdgeConn := setDeadline (Some (Now net + timeout)) tlsEdgeConn in
      match handshake net tlsEdgeConn with
      | (_, Some err) =>
          (None, Some (newDialError err "TLS handshake with edge error"))
      | (tlsEdgeConn, None) =>
          let tlsEdgeConn := setDeadline None tlsEdgeConn in
          (Some tlsEdgeConn, None)
      end
  end.

End edgediscovery.

(** ** package retry *)

Module retry.

(** Modelled from the spec: [retry.BackoffHandler], which
    [protocolFallback] embeds, is declared outside these sources.  The
    spec describes it as an exponential-backoff scheduler with capped
    retries: a retry count that grows across attempts and is cleared by a
    reset, and a ceiling; [more = false] of the current backoff means the
    ceiling has been reached.  The duration of the backoff is only logged
    by the slot worker and is left out. *)
Record BackoffHandler : Type := mkBackoffHandler {
  retries : Z;
  maxRetries : Z
}.

Definition ResetNow (b : BackoffHandler) : BackoffHandler :=
  {| retries := 0; maxRetries := maxRetries b |}.

Definition ReachedMaxRetries (b : BackoffHandler) : bool :=
  maxRetries b <=? retries b.

Definition Retries (b : BackoffHandler) : Z := retries b.

Definition GetMaxBackoffDuration (b : BackoffHandler) : bool :=
  negb (ReachedMaxRetries b).

(** Obtaining the timer counts one more attempt. *)
Definition BackoffTimer (b : BackoffHandler) : BackoffHandler :=
  {| retries := retries b + 1; maxRetries := maxRetries b |}.

End retry.

(** ** package supervisor *)

Module supervisor.

(** [connection.Protocol]; the spec's [protocol ∈ {QUIC, HTTP2}]. *)
Inductive Protocol : Type := HTTP2 | QUIC.

#[global] Instance Protocol_eq_dec : EqDecision Protocol.
Proof. solve_decision. Defined.

(** The [connection.ProtocolSelector] interface, as far as the supervisor
    calls it. *)
Class ProtocolSelector (S : Type) : Type := {
  Current : S -> Protocol;
  Fallback : S -> Protocol * bool
}.

(** What the slot worker leaves behind for its observers: the observer
    events, the time it slept and the lines of the protocol picker. *)
Inductive Event : Type :=
  | SendDisconnect (connIndex : Z)
  | SendReconnect (connIndex : Z)
  | Sleep (d : Z)
  | WarnUDPEgressBlocked
  | InfoSwitchingToFallback (p : Protocol)
  | InfoChangingProtocol (p : Protocol).

(** Appending to the log, in the order of execution. *)
Definition emit (e : Event) (log : list Event) : list Event :=
  (log ++ [e])%list.

(** *** ConnectivityError *)

Definition NewConnectivityError (hasReachedMaxRetries : bool) : error :=
  ConnectivityError hasReachedMaxRetries.

Definition HasReachedMaxRetries (e : error) : bool :=
  match e with
  | ConnectivityError reachedMaxRetries => reachedMaxRetries
  | _ => false
  end.

(** *** The error classifier *)

(** The [EdgeAddrHandler] interface. *)
Class EdgeAddrHandler (H : Type) : Type := {
  handlerShouldGetNewAddress : H -> Z -> option error -> H * (bool * option error)
}.

Record ipAddrFallback : Type := mkIpAddrFallback {
  retriesByConnIndex : gmap Z Z;
  maxRetries : Z
}.

Definition NewIPAddrFallback (maxRetries : Z) : ipAddrFallback :=
  {| retriesByConnIndex := ∅; maxRetries := maxRetries |}.

(** Reading a Go map at a key it does not hold gives the zero value. *)
Definition retriesOf (f : ipAddrFallback) (connIndex : Z) : Z :=
  default 0 (retriesByConnIndex f !! connIndex).

Definition setRetries (f : ipAddrFallback) (connIndex v : Z) : ipAddrFallback :=
  {| retriesByConnIndex := <[connIndex := v]> (retriesByConnIndex f);
     maxRetries := maxRetries f |}.

(** [++] on a [uint8]. *)
Definition incr8 (v : Z) : Z := (v + 1) mod 256.

Definition ShouldGetNewAddress (f : ipAddrFallback) (connIndex : Z)
    (err : option error) : ipAddrFallback * (bool * option error) :=
  match err with
  | None => (f, (false, None))
  | Some DupConnRegisterTunnelError
  | Some IdleTimeoutError => (f, (true, None))
  | Some (DialError _)
  | Some (EdgeQuicDialError _) =>
      if maxRetries f <=? retriesOf f connIndex
      then (setRetries f connIndex 0, (true, Some (NewConnectivityError true)))
      else (setRetries f connIndex (incr8 (retriesOf f connIndex)),
            (true, Some (NewConnectivityError false)))
  | Some _ => (f, (false, None))
  end.

#[global] Instance ipAddrFallback_EdgeAddrHandler : EdgeAddrHandler ipAddrFallback :=
  {| handlerShouldGetNewAddress := ShouldGetNewAddress |}.

(** *** protocolFallback *)

Record protocolFallback : Type := mkProtocolFallback {
  BackoffHandler : retry.BackoffHandler;
  protocol : Protocol;
  inFallback : bool
}.

Definition reset (pf : protocolFallback) : protocolFallback :=
  {| BackoffHandler := retry.ResetNow (BackoffHandler pf);
     protocol := protocol pf;
     inFallback := false |}.

Definition fallback (pf : protocolFallback) (fallback : Protocol) : protocolFallback :=
  {| BackoffHandler := retry.ResetNow (BackoffHandler pf);
     protocol := fallback;
     inFallback := true |}.

Definition setProtocol (pf : protocolFallback) (p : Protocol) : protocolFallback :=
  {| BackoffHandler := BackoffHandler pf; protocol := p; inFallback := inFallback pf |}.

Definition isQuicBroken (cause : option error) : bool :=
  if errorsAs isIdleTimeoutError cause then true
  else if errorsAs isTransportError cause
          && match cause with
             | Some cause => Contains (Error cause) "operation not permitted"
             | None => false
             end
  then true
  else false.

(** [selectNextProtocol]: the lines written to [connLog], the slot's
    protocol state and the returned flag. *)
Definition selectNextProtocol {S : Type} `{ProtocolSelector S}
    (connLog : list Event) (protocolBackoff : protocolFallback)
    (selector : S) (cause : option error)
    : list Event * protocolFallback * bool :=
  let isQuicBroken := isQuicBroken cause in
  let '(_, hasFallback) := Fallback selector in
  if retry.ReachedMaxRetries (BackoffHandler protocolBackoff)
     || (hasFallback && isQuicBroken)
  then
    let connLog :=
      if isQuicBroken then emit WarnUDPEgressBlocked connLog else connLog in
    let '(fallback_, hasFallback) := Fallback selector in
    if negb hasFallback then (connLog, protocolBackoff, false)
    else if decide (protocol protocolBackoff = fallback_)
    then (connLog, protocolBackoff, false)
    else (emit (InfoSwitchingToFallback fallback_) connLog,
          fallback protocolBackoff fallback_, true)
  else if negb (inFallback protocolBackoff) then
    let current := Current selector in
    if decide (protocol protocolBackoff <> current)
    then (emit (InfoChangingProtocol current) connLog,
          setProtocol protocolBackoff current, true)
    else (connLog, protocolBackoff, true)
  else (connLog, protocolBackoff, true).

(** *** The connected fuse *)

(** Modelled from the spec: [booleanFuse] is declared outside these
    sources.  The spec's connected fuse is a one-shot latch: the first
    value it is given sticks, and it reads false until then. *)
Definition booleanFuse : Type := option bool.

Definition newBooleanFuse : booleanFuse := None.

Definition Fuse (result : bool) (f : booleanFuse) : booleanFuse :=
  match f with
  | None => Some result
  | Some _ => f
  end.

Definition Value (f : booleanFuse) : bool := default false f.

Record connectedFuse : Type := mkConnectedFuse {
  fuse : booleanFuse;
  backoff : protocolFallback
}.

Definition Connected (cf : connectedFuse) : connectedFuse :=
  {| fuse := Fuse true (fuse cf); backoff := reset (backoff cf) |}.

Definition IsConnected (cf : connectedFuse) : bool := Value (fuse cf).

(** *** One attempt of a slot *)

(** A value given to [panic]: an [error], or anything else with its [%v]
    rendering. *)
Inductive PanicValue : Type :=
  | panicError (err : error)
  | panicValue (v : string).

(** How [serveConnection] ends: it returns, or it panics. *)
Inductive ConnResult : Type :=
  | returns (err : option error) (recoverable : bool)
  | panics (r : PanicValue).

(** What the transports do during [serveConnection]: whether the control
    stream reports the connection as connected, and how serving ends. *)
Record Outcome : Type := mkOutcome {
  connects : bool;
  result : ConnResult
}.

(** What one call of [Serve] works on: the server's error classifier, the
    [*protocolFallback] it is given, its connected fuse, and the events it
    emits. *)
Record state (H : Type) : Type := mkState {
  edgeAddrHandler : H;
  slotFallback : protocolFallback;
  slotFuse : booleanFuse;
  events : list Event
}.
Arguments mkState {H}.
Arguments edgeAddrHandler {H}.
Arguments slotFallback {H}.
Arguments slotFuse {H}.
Arguments events {H}.

(** [serveConnection] hands the fuse and the backoff to the control stream
    through a [connectedFuse]; dialling and serving are the transports'. *)
Definition serveConnection (o : Outcome) (fuse : booleanFuse)
    (backoff : protocolFallback) : connectedFuse * ConnResult :=
  let connectedFuse := {| fuse := fuse; backoff := backoff |} in
  (if connects o then Connected connectedFuse else connectedFuse, result o).

(** Modelled from the spec: [ReconnectSignal.DelayBeforeReconnect] is
    declared outside these sources; on a reconnect signal the worker
    sleeps the carried delay. *)
Definition DelayBeforeReconnect (Delay : Z) (log : list Event) : list Event :=
  emit (Sleep Delay) log.

Definition isContextCanceled (e : error) : bool :=
  match e with contextCanceled => true | _ => false end.

Definition isUnrecoverableError (e : error) : bool :=
  match e with unrecoverableError _ => true | _ => false end.

(** The deferred [recover] of [serveTunnel]; [stack] is [debug.Stack()]. *)
Definition recovered (r : PanicValue) (stack : string) : option error * bool :=
  let err :=
    match r with
    | panicError err => err
    | panicValue v => errorString ("ServeTunnel: " ++ v)
    end in
  (Some (withMessage err ("stack trace: " ++ stack)), true).

Definition serveTunnel {H : Type} (o : Outcome) (stack : string)
    (connIndex : Z) (st : state H) : state H * (option error * bool) :=
  let '(cf, res) := serveConnection o (slotFuse st) (slotFallback st) in
  let '(log, ret) :=
    match res with
    | returns (Some err) recoverable =>
        match err with
        | DupConnRegisterTunnelError => (events st, (Some err, false))
        | ServerRegisterTunnelError Cause Permanent =>
            (events st, (Some Cause, negb Permanent))
        | EdgeQuicDialError _ => (events st, (Some err, false))
        | ReconnectSignal Delay =>
            (DelayBeforeReconnect Delay (events st), (Some err, true))
        | _ =>
            if isContextCanceled err then (events st, (Some err, false))
            else
              let permanent := isUnrecoverableError err in
              (events st, (Some err, negb permanent))
        end
    | returns None recoverable => (events st, (None, false))
    | panics r => (events st, recovered r stack)
    end in
  ({| edgeAddrHandler := edgeAddrHandler st;
      slotFallback := backoff cf;
      slotFuse := fuse cf;
      events := emit (SendDisconnect connIndex) log |}, ret).

(** *** The wait after a failed attempt *)

(** The cases of the [select] in [Serve]. *)
Inductive WaitArm : Type :=
  | ctx_Done
  | gracefulShutdownC
  | backoffTimer.

(** When each channel becomes ready, if ever, on the clock of the wait.
    [reconnectAt] is the shared reconnect channel. *)
Record Signals : Type := mkSignals {
  ctxDoneAt : option Z;
  gracefulShutdownAt : option Z;
  timerAt : option Z;
  reconnectAt : option Z
}.

Definition armTime (sig : Signals) (arm : WaitArm) : option Z :=
  match arm with
  | ctx_Done => ctxDoneAt sig
  | gracefulShutdownC => gracefulShutdownAt sig
  | backoffTimer => timerAt sig
  end.

Definition selectCases : list WaitArm := [ctx_Done; gracefulShutdownC; backoffTimer].

(** No case of the select is ready before time [t]. *)
Definition noneBefore (sig : Signals) (t : Z) : bool :=
  forallb (fun other =>
             match armTime sig other with
             | Some u => t <=? u
             | None => true
             end) selectCases.

(** A [select] blocks until one of its cases is ready and runs a case that
    is ready then; when several are, any of them. *)
Definition fires (sig : Signals) (arm : WaitArm) : bool :=
  match armTime sig arm with
  | Some t => noneBefore sig t
  | None => false
  end.

Definition selectReady (sig : Signals) : list WaitArm :=
  List.filter (fires sig) selectCases.

(** The moment the wait ends, if it does. *)
Definition wakeTime (sig : Signals) : option Z :=
  match selectReady sig with
  | arm :: _ => armTime sig arm
  | [] => None
  end.

(** *** Serve *)

(** What the collaborators of one [Serve] call answer. *)
Record Inputs (S : Type) : Type := mkInputs {
  GetAddr : option error;              (* the error of edgeAddrs.GetAddr *)
  served : Outcome;
  stack : string;
  GetDifferentAddr : option error;     (* the error of edgeAddrs.GetDifferentAddr *)
  selector : S;                        (* config.ProtocolSelector *)
  HasConnectedWith : Protocol -> bool; (* tracker.HasConnectedWith *)
  ctxErr : error;                      (* ctx.Err() once ctx is done *)
  signals : Signals
}.
Arguments mkInputs {S}.
Arguments GetAddr {S}.
Arguments served {S}.
Arguments stack {S}.
Arguments GetDifferentAddr {S}.
Arguments selector {S}.
Arguments HasConnectedWith {S}.
Arguments ctxErr {S}.
Arguments signals {S}.

(** [Serve] up to its [select]: either it has returned, or it waits with
    the error of the attempt and [shouldFallbackProtocol].  The gauge of
    serving slots, the loggers and the goroutine that forwards the fuse to
    [connectedSignal] take no part in what the worker decides and are left
    out. *)
Inductive Attempt (H : Type) : Type :=
  | Returned (st : state H) (err : option error)
  | Waiting (st : state H) (err : option error) (shouldFallbackProtocol : bool).
Arguments Returned {H}.
Arguments Waiting {H}.

Section Serve.
Context {H S : Type} `{EdgeAddrHandler H} `{ProtocolSelector S}.

Definition withFallback (st : state H) (pf : protocolFallback) : state H :=
  {| edgeAddrHandler := edgeAddrHandler st; slotFallback := pf;
     slotFuse := slotFuse st; events := events st |}.

Definition Serve_attempt (e : Inputs S) (connIndex : Z) (st : state H)
    : Attempt H :=
  let st := {| edgeAddrHandler := edgeAddrHandler st;
               slotFallback := slotFallback st;
               slotFuse := newBooleanFuse;
               events := events st |} in
  match GetAddr e with
  | Some err => Returned st (Some err)
  | None =>
      let '(st, (err, shouldFallbackProtocol)) :=
        serveTunnel (served e) (stack e) connIndex st in
      let '(handler, (shouldRotateEdgeIP, cErr)) :=
        handlerShouldGetNewAddress (edgeAddrHandler st) connIndex err in
      let st := {| edgeAddrHandler := handler;
                   slotFallback := slotFallback st;
                   slotFuse := slotFuse st;
                   events := events st |} in
      let rotated :=
        if shouldRotateEdgeIP then
          match GetDifferentAddr e with
          | Some err => inl err
          | None =>
              inr match cErr with
                  | Some (ConnectivityError _ as connectivityErr) =>
                      HasReachedMaxRetries connectivityErr
                  | _ => shouldFallbackProtocol
                  end
          end
        else inr shouldFallbackProtocol in
      match rotated with
      | inl err => Returned st (Some err)
      | inr shouldFallbackProtocol =>
          if negb (retry.GetMaxBackoffDuration (BackoffHandler (slotFallback st)))
          then Returned st err
          else
            let st := {| edgeAddrHandler := edgeAddrHandler st;
                         slotFallback := slotFallback st;
                         slotFuse := slotFuse st;
                         events := emit (SendReconnect connIndex) (events st) |} in
            Waiting st err shouldFallbackProtocol
      end
  end.

(** The case of the [select] that runs, and the [return err] after it.
    Entering the [select] evaluates [protocolFallback.BackoffTimer()]. *)
Definition Serve_select (e : Inputs S) (st : state H) (err : option error)
    (shouldFallbackProtocol : bool) (arm : WaitArm) : state H * option error :=
  let timer := retry.BackoffTimer (BackoffHandler (slotFallback st)) in
  let st := withFallback st
              {| BackoffHandler := timer;
                 protocol := protocol (slotFallback st);
                 inFallback := inFallback (slotFallback st) |} in
  match arm with
  | ctx_Done => (st, Some (ctxErr e))
  | gracefulShutdownC => (st, None)
  | backoffTimer =>
      if negb shouldFallbackProtocol then (st, err)
      else if HasConnectedWith e (Current (selector e)) then (st, err)
      else
        let '(connLog, protocolFallback, ok) :=
          selectNextProtocol (events st) (slotFallback st) (selector e) err in
        let st := {| edgeAddrHandler := edgeAddrHandler st;
                     slotFallback := protocolFallback;
                     slotFuse := slotFuse st;
                     events := connLog |} in
        if negb ok then (st, err) else (st, err)
  end.

(** The deferred [connectedFuse.Fuse(false)]. *)
Definition Serve_return (r : state H * option error) : state H * option error :=
  let '(st, err) := r in
  ({| edgeAddrHandler := edgeAddrHandler st;
      slotFallback := slotFallback st;
      slotFuse := Fuse false (slotFuse st);
      events := events st |}, err).

(** [Serve]: every way the call can end.  The list is empty when the
    [select] never becomes ready. *)
Definition Serve (e : Inputs S) (connIndex : Z) (st : state H)
    : list (state H * option error) :=
  match Serve_attempt e connIndex st with
  | Returned st err => [Serve_return (st, err)]
  | Waiting st err shouldFallbackProtocol =>
      map (fun arm => Serve_return (Serve_select e st err shouldFallbackProtocol arm))
          (selectReady (signals e))
  end.

End Serve.

(** *** The transports *)

(** [15 * time.Second], in nanoseconds. *)
Definition dialTimeout : Z := 15 * 1000000000.

(** What the collaborators of [serveConnection] answer during one attempt:
    the network of the edge dialer, the feature snapshot, the QUIC dialer by
    the initial packet size it is given, the wrapping of the QUIC connection,
    whether the control stream reports the connection while it is served,
    and what [errGroup.Wait()] returns when serving ends. *)
Record Transports : Type := mkTransports {
  network : edgediscovery.Network;
  edgeTCP : string;                         (* addr.TCP *)
  Is4 : bool;                               (* edgeAddr.Addr().Is4() *)
  edgeBindAddr : option string;
  PostQuantumStrict : bool;                 (* pqMode == features.PostQuantumStrict *)
  curvePreference : option error;           (* the error of curvePreference *)
  DialQuic : Z -> option error;             (* by InitialPacketSize *)
  NewTunnelConnection : option error;
  controlStreamConnects : bool;
  errGroupWait : option error
}.

(** [serveHTTP2]: whether the connection was reported connected, and the
    error. *)
Definition serveHTTP2 (t : Transports) : bool * option error :=
  if PostQuantumStrict t
  then (false, Some (unrecoverableError
                       (errorString "HTTP/2 transport does not support post-quantum")))
  else (controlStreamConnects t, errGroupWait t).

Definition initialPacketSize (t : Transports) : Z :=
  if Is4 t then 1232 else 1252.

(** [serveQUIC]: whether the connection was reported connected, the error
    and the recoverable flag.  The report to the crash reporter leaves no
    trace in what the worker does and is left out. *)
Definition serveQUIC (t : Transports) : bool * (option error * bool) :=
  match curvePreference t with
  | Some err => (false, (Some err, true))
  | None =>
      match DialQuic t (initialPacketSize t) with
      | Some err => (false, (Some err, true))
      | None =>
          match NewTunnelConnection t with
          | Some err => (false, (Some err, true))
          | None => (controlStreamConnects t, (errGroupWait t, false))
          end
      end
  end.

(** The [switch protocol] of [serveConnection]: what serving on [protocol]
    comes to. *)
Definition serveConnection_switch (t : Transports) (protocol : Protocol) : Outcome :=
  match protocol with
  | QUIC =>
      let '(connected, (err, recoverable)) := serveQUIC t in
      {| connects := connected; result := returns err recoverable |}
  | HTTP2 =>
      match edgediscovery.DialEdge (network t) dialTimeout (edgeTCP t) (edgeBindAddr t) with
      | (_, Some err) => {| connects := false; result := returns (Some err) true |}
      | (_, None) =>
          match serveHTTP2 t with
          | (connected, Some err) =>
              {| connects := connected; result := returns (Some err) false |}
          | (connected, None) =>
              {| connects := connected; result := returns None false |}
          end
      end
  end.

(** *** listenReconnect *)

(** The cases of the [select] in [listenReconnect]. *)
Inductive ListenCase : Type :=
  | reconnectCh
  | gracefulShutdownCh
  | listen_ctx_Done.

Definition listenTime (sig : Signals) (c : ListenCase) : option Z :=
  match c with
  | reconnectCh => reconnectAt sig
  | gracefulShutdownCh => gracefulShutdownAt sig
  | listen_ctx_Done => ctxDoneAt sig
  end.

Definition listenCases : list ListenCase :=
  [reconnectCh; gracefulShutdownCh; listen_ctx_Done].

Definition listens (sig : Signals) (c : ListenCase) : bool :=
  match listenTime sig c with
  | Some t =>
      forallb (fun other =>
                 match listenTime sig other with
                 | Some u => t <=? u
                 | None => true
                 end) listenCases
  | None => false
  end.

(** [listenReconnect]: every way the call can return, for a signal
    [reconnect] on the channel; empty when no case ever becomes ready. *)
Definition listenReconnect (sig : Signals) (reconnect : error) : list (option error) :=
  map (fun c =>
         match c with
         | reconnectCh => Some reconnect
         | gracefulShutdownCh => None
         | listen_ctx_Done => None
         end)
      (List.filter (listens sig) listenCases).

End supervisor.

Import supervisor.

(** ** Vocabulary of the statements *)

(** The dial failures of the classifier: a [DialError] of the TCP/TLS dialer
    or an [EdgeQuicDialError] of the QUIC one, by dynamic type. *)
Definition isDialFailure (err : option error) : bool :=
  match err with
  | Some (DialError _) | Some (EdgeQuicDialError _) => true
  | _ => false
  end.


(** The condition under which the protocol picker considers the fallback. *)
Definition considersFallback {S : Type} `{ProtocolSelector S}
    (pb : protocolFallback) (selector : S) (cause : option error) : bool :=
  retry.ReachedMaxRetries (BackoffHandler pb)
  || (snd (Fallback selector) && isQuicBroken cause).

(** The wait in the spec's words: it ends at the earliest of the backoff
    timer, the cancellation of the context, the graceful-shutdown signal and
    a reconnect signal from the external channel. *)
Definition earlier (a b : option Z) : option Z :=
  match a, b with
  | Some x, Some y => Some (Z.min x y)
  | Some x, None => Some x
  | None, b => b
  end.

Definition specWakeTime (sig : Signals) : option Z :=
  earlier (timerAt sig)
    (earlier (ctxDoneAt sig) (earlier (gracefulShutdownAt sig) (reconnectAt sig))).

(** [n] dial failures in a row on one slot, as the classifier sees them. *)
Fixpoint dialFailures (n : nat) (f : ipAddrFallback) (connIndex : Z) (err : error)
    : ipAddrFallback :=
  match n with
  | O => f
  | S n => fst (ShouldGetNewAddress (dialFailures n f connIndex err) connIndex (Some err))
  end.

(** The slot invariant: a slot in fallback is on the protocol the selector
    names as the fallback. *)
Definition fallbackConsistent {S : Type} `{ProtocolSelector S}
    (selector : S) (pf : protocolFallback) : Prop :=
  inFallback pf = true -> protocol pf = fst (Fallback selector).

(** The counters of a classifier are [uint8] values. *)
Definition countersInRange (f : ipAddrFallback) : Prop :=
  map_Forall (fun _ v => 0 <= v <= 255) (retriesByConnIndex f).

(** The errors [serveTunnel] returns as not retryable whatever they wrap. *)
Definition isTerminal (err : error) : bool :=
  match err with
  | DupConnRegisterTunnelError | contextCanceled | unrecoverableError _ => true
  | _ => false
  end.

(** How often an event occurs in a log. *)
Definition occurrences (ev : Event -> bool) (log : list Event) : nat :=
  length (List.filter ev log).

Definition isSendDisconnect (ev : Event) : bool :=
  match ev with SendDisconnect _ => true | _ => false end.

Definition isPickerLine (ev : Event) : bool :=
  match ev with
  | WarnUDPEgressBlocked | InfoSwitchingToFallback _ | InfoChangingProtocol _ => true
  | _ => false
  end.

(** A call of [Serve] that ended in [r] has left the protocol of the slot
    alone: the slot is on the protocol it was on, has not entered fallback,
    and the protocol picker has logged nothing. *)
Definition leavesProtocolAlone {H : Type} (st : state H)
    (r : state H * option error) : Prop :=
  protocol (slotFallback (fst r)) = protocol (slotFallback st) /\
  (inFallback (slotFallback (fst r)) = true -> inFallback (slotFallback st) = true) /\
  occurrences isPickerLine (events (fst r)) = occurrences isPickerLine (events st).

(** The errors for which the classifier asks for a new address. *)
Definition asksNewAddress (err : option error) : bool :=
  match err with
  | Some DupConnRegisterTunnelError | Some IdleTimeoutError => true
  | _ => isDialFailure err
  end.

(** The same call with another answer of the pool to [GetDifferentAddr]. *)
Definition withGetDifferentAddr {S : Type} (e : Inputs S) (answer : option error)
    : Inputs S :=
  {| GetAddr := GetAddr e;
     served := served e;
     stack := stack e;
     GetDifferentAddr := answer;
     selector := selector e;
     HasConnectedWith := HasConnectedWith e;
     ctxErr := ctxErr e;
     signals := signals e |}.

(** One call of [Serve] in which serving is what the transports [t] make of
    the slot's protocol. *)
Definition onTransports {S : Type} (e : Inputs S) (t : Transports)
    (pf : protocolFallback) : Inputs S :=
  {| GetAddr := GetAddr e;
     served := serveConnection_switch t (protocol pf);
     stack := stack e;
     GetDifferentAddr := GetDifferentAddr e;
     selector := selector e;
     HasConnectedWith := HasConnectedWith e;
     ctxErr := ctxErr e;
     signals := signals e |}.

(** ** Scenarios *)

(** A protocol selector observed at one moment. *)
Record selectorSnapshot : Type := mkSnapshot {
  snapCurrent : Protocol;
  snapFallback : Protocol * bool
}.

#[global] Instance selectorSnapshot_ProtocolSelector : ProtocolSelector selectorSnapshot :=
  {| Current := snapCurrent; Fallback := snapFallback |}.

(** QUIC preferred, HTTP/2 as the fallback. *)
Definition quicWithFallback : selectorSnapshot :=
  {| snapCurrent := QUIC; snapFallback := (HTTP2, true) |}.

Definition connectionRefused : error :=
  DialError (withMessage (errorString "connect: connection refused") "DialContext error").

(** A slot with [n] retries out of three, on protocol [p]. *)
Definition slotOn (p : Protocol) (inFallback : bool) (n : Z) : protocolFallback :=
  {| BackoffHandler := {| retry.retries := n; retry.maxRetries := 3 |};
     protocol := p;
     inFallback := inFallback |}.

Definition quicDialFailed : error :=
  EdgeQuicDialError (errorString "timeout: handshake did not complete in time").

Definition endOfStream : error := errorString "EOF".

(** Only the backoff timer ever fires. *)
Definition timerOnly : Signals :=
  {| ctxDoneAt := None; gracefulShutdownAt := None;
     timerAt := Some 4; reconnectAt := None |}.

(** A reconnect signal arrives while the backoff timer is still running. *)
Definition reconnectFirst : Signals :=
  {| ctxDoneAt := None; gracefulShutdownAt := None;
     timerAt := Some 30; reconnectAt := Some 10 |}.

(** A reconnect signal arrives and no case of the wait ever becomes ready. *)
Definition reconnectOnly : Signals :=
  {| ctxDoneAt := None; gracefulShutdownAt := None;
     timerAt := None; reconnectAt := Some 10 |}.

(** The context is cancelled before the backoff timer fires. *)
Definition cancelledFirst : Signals :=
  {| ctxDoneAt := Some 2; gracefulShutdownAt := None;
     timerAt := Some 30; reconnectAt := None |}.

(** One attempt against the selector [quicWithFallback], with addresses
    available, in which serving ends as [o] says. *)
Definition attempt (o : Outcome) (connected : Protocol -> bool) (sig : Signals)
    : Inputs selectorSnapshot :=
  {| GetAddr := None;
     served := o;
     stack := "";
     GetDifferentAddr := None;
     selector := quicWithFallback;
     HasConnectedWith := connected;
     ctxErr := contextCanceled;
     signals := sig |}.

Definition fails (err : error) (recoverable : bool) : Outcome :=
  {| connects := false; result := returns (Some err) recoverable |}.

Definition connectsThenFails (err : error) : Outcome :=
  {| connects := true; result := returns (Some err) false |}.

Definition nobodyConnected (p : Protocol) : bool := false.

Definition connectedWithQUIC (p : Protocol) : bool :=
  match p with QUIC => true | HTTP2 => false end.

(** A slot of a server whose classifier allows three rotations. *)
Definition slotState (pf : protocolFallback) (f : ipAddrFallback) : state ipAddrFallback :=
  mkState f pf None [].

(** An edge whose TCP dial fails with [err]. *)
Definition unreachableEdge (err : error) : edgediscovery.Network :=
  {| edgediscovery.hasDialContext := true;
     edgediscovery.DialContext := fun _ _ _ => Some err;
     edgediscovery.Dial := fun _ _ => Some err;
     edgediscovery.tlsHandshake := fun _ => None;
     edgediscovery.Now := 1000 |}.

(** An edge that accepts TCP and TLS. *)
Definition reachableEdge : edgediscovery.Network :=
  {| edgediscovery.hasDialContext := true;
     edgediscovery.DialContext := fun _ _ _ => None;
     edgediscovery.Dial := fun _ _ => None;
     edgediscovery.tlsHandshake := fun _ => None;
     edgediscovery.Now := 1000 |}.

(** Transports over [net] in which QUIC dials and serving ends with
    [served]; [strict] is the post-quantum strict mode. *)
Definition transportsOver (net : edgediscovery.Network) (strict : bool)
    (served : option error) : Transports :=
  {| network := net;
     edgeTCP := "198.41.192.7:7844";
     Is4 := true;
     edgeBindAddr := None;
     PostQuantumStrict := strict;
     curvePreference := None;
     DialQuic := fun _ => None;
     NewTunnelConnection := None;
     controlStreamConnects := true;
     errGroupWait := served |}.

(** A shutdown while a reconnect signal is still to come. *)
Definition shutdownFirst : Signals :=
  {| ctxDoneAt := None; gracefulShutdownAt := Some 3;
     timerAt := None; reconnectAt := Some 10 |}.

(** An edge that accepts the TCP connection and whose TLS handshake fails
    when it runs into the deadline set for it. *)
Definition slowHandshake : edgediscovery.Network :=
  {| edgediscovery.hasDialContext := true;
     edgediscovery.DialContext := fun _ _ _ => None;
     edgediscovery.Dial := fun _ _ => None;
     edgediscovery.tlsHandshake := fun c =>
       match edgediscovery.deadline c with
       | Some _ => Some (errorString "i/o timeout")
       | None => None
       end;
     edgediscovery.Now := 1000 |}.

(** ** The error classifier *)

Lemma retriesOf_setRetries (f : ipAddrFallback) (connIndex v : Z) :
  retriesOf (setRetries f connIndex v) connIndex = v.
Proof. unfold retriesOf, setRetries; simpl. now rewrite lookup_insert_eq. Qed.

Lemma retriesOf_setRetries_ne (f : ipAddrFallback) (connIndex slot v : Z) :
  slot <> connIndex ->
  retriesOf (setRetries f connIndex v) slot = retriesOf f slot.
Proof.
  intros Hne. unfold retriesOf, setRetries; simpl.
  rewrite lookup_insert_ne; [reflexivity | congruence].
Qed.

Lemma incr8_small (v : Z) : 0 <= v < 255 -> incr8 v = v + 1.
Proof. intros Hv. unfold incr8. apply Z.mod_small. lia. Qed.

(** A classification touches the counter of the slot it is about only. *)
Lemma ShouldGetNewAddress_other_slots (f : ipAddrFallback) (connIndex slot : Z)
    (err : option error) :
  slot <> connIndex ->
  retriesOf (fst (ShouldGetNewAddress f connIndex err)) slot = retriesOf f slot.
Proof.
  intros Hne. destruct err as [[]|]; simpl; try reflexivity;
    destruct (maxRetries f <=? retriesOf f connIndex); simpl;
    now apply retriesOf_setRetries_ne.
Qed.

(** The counters stay in the range of a [uint8]. *)
Lemma ShouldGetNewAddress_range (f : ipAddrFallback) (connIndex : Z)
    (err : option error) :
  map_Forall (fun _ v => 0 <= v <= 255) (retriesByConnIndex f) ->
  map_Forall (fun _ v => 0 <= v <= 255)
    (retriesByConnIndex (fst (ShouldGetNewAddress f connIndex err))).
Proof.
  intros Hf. destruct err as [[]|]; simpl; try assumption;
    destruct (maxRetries f <=? retriesOf f connIndex); simpl;
    apply map_Forall_insert_2; try assumption; try lia;
    unfold incr8;
    pose proof (Z.mod_pos_bound (retriesOf f connIndex + 1) 256); lia.
Qed.

Lemma dialFailures_maxRetries (n : nat) (f : ipAddrFallback) (connIndex : Z)
    (err : error) :
  maxRetries (dialFailures n f connIndex err) = maxRetries f.
Proof.
  induction n as [| n IH]; simpl; [reflexivity |].
  destruct err; simpl; try exact IH;
    destruct (_ <=? _); simpl; exact IH.
Qed.

(** Starting from a counter at zero, the first [maxRetries] dial failures in
    a row are counted one by one and none of them reports the ceiling. *)
Lemma dialFailures_count (n : nat) (f : ipAddrFallback) (connIndex : Z) (err : error) :
  isDialFailure (Some err) = true ->
  retriesOf f connIndex = 0 ->
  Z.of_nat n <= maxRetries f <= 255 ->
  retriesOf (dialFailures n f connIndex err) connIndex = Z.of_nat n.
Proof.
  intros Hd Hzero. induction n as [| n IH]; intros Hn.
  - exact Hzero.
  - assert (Hprev : retriesOf (dialFailures n f connIndex err) connIndex = Z.of_nat n)
      by (apply IH; lia).
    assert (Hstep : forall g : ipAddrFallback,
              retriesOf g connIndex < maxRetries g ->
              fst (ShouldGetNewAddress g connIndex (Some err))
              = setRetries g connIndex (incr8 (retriesOf g connIndex))).
    { intros g Hlt.
      destruct err; simpl in Hd; try discriminate; simpl;
        destruct (Z.leb_spec (maxRetries g) (retriesOf g connIndex)); try lia;
        reflexivity. }
    cbn [dialFailures]. rewrite Hstep.
    + rewrite retriesOf_setRetries, Hprev. rewrite incr8_small; lia.
    + rewrite dialFailures_maxRetries, Hprev. lia.
Qed.

(** The failure after those reports the ceiling and starts the count again. *)
Lemma dialFailures_latch (f : ipAddrFallback) (connIndex : Z) (err : error) :
  isDialFailure (Some err) = true ->
  retriesOf f connIndex = 0 ->
  0 <= maxRetries f <= 255 ->
  let exhausted := dialFailures (Z.to_nat (maxRetries f)) f connIndex err in
  snd (ShouldGetNewAddress exhausted connIndex (Some err))
  = (true, Some (ConnectivityError true)) /\
  retriesOf (fst (ShouldGetNewAddress exhausted connIndex (Some err))) connIndex = 0.
Proof.
  intros Hd Hzero Hmax exhausted.
  assert (Hcount : retriesOf exhausted connIndex = maxRetries f).
  { unfold exhausted. rewrite dialFailures_count by (try assumption; lia). lia. }
  assert (Hm : maxRetries exhausted = maxRetries f)
    by apply dialFailures_maxRetries.
  destruct err; simpl in Hd; try discriminate; simpl;
    rewrite Hm, Hcount, Z.leb_refl; simpl;
    (split; [reflexivity | apply retriesOf_setRetries]).
Qed.

(** C2: [ShouldGetNewAddress] is the classification table, first match
    first: nil gives (false, nil); a duplicate registration or a QUIC
    idle timeout gives (true, nil); a [DialError] or [EdgeQuicDialError]
    gives true with a connectivity error whose flag says whether the slot's
    counter had reached [maxRetries], the counter going back to 0 if so and
    up by one if not; anything else gives (false, nil). *)
Theorem ShouldGetNewAddress_table (f f' : ipAddrFallback) (connIndex : Z)
    (err : option error) (needsNewAddress : bool) (connectivityError : option error) :
  maxRetries f <= 255 ->
  0 <= retriesOf f connIndex ->
  ShouldGetNewAddress f connIndex err = (f', (needsNewAddress, connectivityError)) ->
  (err = None -> needsNewAddress = false /\ connectivityError = None) /\
  (err = Some DupConnRegisterTunnelError \/ err = Some IdleTimeoutError ->
   needsNewAddress = true /\ connectivityError = None) /\
  (isDialFailure err = true ->
   needsNewAddress = true /\
   (maxRetries f <= retriesOf f connIndex ->
    connectivityError = Some (ConnectivityError true) /\
    retriesOf f' connIndex = 0) /\
   (retriesOf f connIndex < maxRetries f ->
    connectivityError = Some (ConnectivityError false) /\
    retriesOf f' connIndex = retriesOf f connIndex + 1)) /\
  (err <> None -> err <> Some DupConnRegisterTunnelError ->
   err <> Some IdleTimeoutError -> isDialFailure err = false ->
   needsNewAddress = false /\ connectivityError = None).
Proof.
  intros Hmax Hpos Hcall.
  assert (Hdial : isDialFailure err = true ->
            ShouldGetNewAddress f connIndex err =
            if maxRetries f <=? retriesOf f connIndex
            then (setRetries f connIndex 0, (true, Some (ConnectivityError true)))
            else (setRetries f connIndex (incr8 (retriesOf f connIndex)),
                  (true, Some (ConnectivityError false)))).
  { destruct err as [[]|]; simpl; intros; try discriminate; reflexivity. }
  split; [| split; [| split]].
  - intros ->. simpl in Hcall. split; congruence.
  - intros [-> | ->]; simpl in Hcall; split; congruence.
  - intros Hd. rewrite (Hdial Hd) in Hcall.
    destruct (Z.leb_spec (maxRetries f) (retriesOf f connIndex)) as [Hge | Hlt].
    + injection Hcall as <- <- <-. split; [reflexivity | split].
      * intros _. split; [reflexivity | apply retriesOf_setRetries].
      * lia.
    + injection Hcall as <- <- <-. split; [reflexivity | split].
      * lia.
      * intros _. split; [reflexivity |].
        rewrite retriesOf_setRetries. apply incr8_small. lia.
  - intros Hnil Hdup Hidle Hd.
    destruct err as [[]|]; simpl in *; try congruence;
      injection Hcall as <- <- <-; split; reflexivity.
Qed.

Lemma ShouldGetNewAddress_table_witness :
  maxRetries (NewIPAddrFallback 3) <= 255 /\
  0 <= retriesOf (NewIPAddrFallback 3) 0 /\
  ShouldGetNewAddress (NewIPAddrFallback 3) 0 (Some connectionRefused) =
    (setRetries (NewIPAddrFallback 3) 0 1, (true, Some (ConnectivityError false))) /\
  retriesOf (setRetries (NewIPAddrFallback 3) 0 1) 0 = retriesOf (NewIPAddrFallback 3) 0 + 1.
Proof.
  assert (Hmax : maxRetries (NewIPAddrFallback 3) <= 255) by (simpl; lia).
  assert (Hpos : 0 <= retriesOf (NewIPAddrFallback 3) 0) by (vm_compute; discriminate).
  assert (Hcall : ShouldGetNewAddress (NewIPAddrFallback 3) 0 (Some connectionRefused) =
                  (setRetries (NewIPAddrFallback 3) 0 1,
                   (true, Some (ConnectivityError false)))) by reflexivity.
  split; [exact Hmax | split; [exact Hpos | split; [exact Hcall |]]].
  destruct (ShouldGetNewAddress_table _ _ _ _ _ _ Hmax Hpos Hcall)
    as (_ & _ & Hdial & _).
  destruct (Hdial eq_refl) as (_ & _ & Hbelow).
  apply Hbelow. vm_compute. reflexivity.
Defined.

(** C10: only a dial failure changes the counters.  Classifying nil, a
    duplicate registration, a QUIC idle timeout or any other error that is
    not a dial failure leaves the counter of every slot as it was. *)
Theorem ShouldGetNewAddress_counts_dial_failures_only (f : ipAddrFallback)
    (connIndex : Z) (err : option error) :
  isDialFailure err = false ->
  fst (ShouldGetNewAddress f connIndex err) = f /\
  forall slot : Z,
    retriesByConnIndex (fst (ShouldGetNewAddress f connIndex err)) !! slot =
    retriesByConnIndex f !! slot.
Proof.
  intros Hd.
  assert (Hsame : fst (ShouldGetNewAddress f connIndex err) = f).
  { destruct err as [[]|]; simpl in *; try reflexivity; discriminate. }
  split; [exact Hsame | intros slot; now rewrite Hsame].
Qed.

Lemma ShouldGetNewAddress_counts_dial_failures_only_witness :
  isDialFailure (Some IdleTimeoutError) = false /\
  fst (ShouldGetNewAddress (setRetries (NewIPAddrFallback 3) 1 2) 1 (Some IdleTimeoutError))
  = setRetries (NewIPAddrFallback 3) 1 2.
Proof.
  split; [reflexivity |].
  apply (ShouldGetNewAddress_counts_dial_failures_only
           (setRetries (NewIPAddrFallback 3) 1 2) 1 (Some IdleTimeoutError)).
  reflexivity.
Defined.

(** ** The protocol picker *)


Lemma errorsAs_chain (target : error -> bool) (e x : error) :
  In x (chain e) -> target x = true -> errorsAs target (Some e) = true.
Proof.
  intros Hin Hx. simpl. apply existsb_exists. exists x. split; assumption.
Qed.



Lemma chain_Unwrap (e : error) :
  chain e = e :: match Unwrap e with
                 | Some cause => chain cause
                 | None => []
                 end.
Proof. destruct e; reflexivity. Qed.

(** What [isQuicBroken] tests, read off the error chain. *)
Lemma isQuicBroken_inv (cause : error) :
  isQuicBroken (Some cause) = true ->
  In IdleTimeoutError (chain cause) \/
  exists text : string,
    In (TransportError text) (chain cause) /\
    Contains (Error cause) "operation not permitted" = true.
Proof.
  unfold isQuicBroken, errorsAs.
  destruct (existsb isIdleTimeoutError (chain cause)) eqn:Hidle.
  - intros _. left. apply existsb_exists in Hidle as (x & Hin & Hx).
    destruct x; try discriminate. exact Hin.
  - destruct (existsb isTransportError (chain cause)) eqn:Htransport;
      [| discriminate].
    destruct (Contains (Error cause) "operation not permitted") eqn:Htext;
      [| discriminate].
    intros _. right. apply existsb_exists in Htransport as (x & Hin & Hx).
    destruct x; try discriminate. eexists. split; [exact Hin | reflexivity].
Qed.

Lemma isQuicBroken_nil : isQuicBroken None = false.
Proof. reflexivity. Qed.

Lemma fallback_fields (pb : protocolFallback) (p : Protocol) :
  protocol (fallback pb p) = p /\
  inFallback (fallback pb p) = true /\
  retry.Retries (BackoffHandler (fallback pb p)) = 0.
Proof. repeat split. Qed.

(** C1, as the code has it: when the retry ceiling has been reached (or the
    cause is QUIC-broken and a fallback exists), the picker gives up,
    leaving the slot as it is, if the selector has no fallback or the slot
    is already on the fallback protocol, and otherwise moves the slot to the
    fallback, sets [inFallback], clears the retries and continues.  When
    neither holds it continues: a slot that is not in fallback is aligned
    with the selector's [Current()], a slot in fallback is left alone. *)
Theorem selectNextProtocol_decision {S : Type} `{ProtocolSelector S}
    (connLog connLog' : list Event) (pb pb' : protocolFallback) (selector : S)
    (cause : option error) (ok : bool) :
  selectNextProtocol connLog pb selector cause = (connLog', pb', ok) ->
  (considersFallback pb selector cause = true ->
   (snd (Fallback selector) = true ->
    protocol pb <> fst (Fallback selector) ->
    ok = true /\
    protocol pb' = fst (Fallback selector) /\
    inFallback pb' = true /\
    retry.Retries (BackoffHandler pb') = 0) /\
   (snd (Fallback selector) = false \/ protocol pb = fst (Fallback selector) ->
    ok = false /\ pb' = pb)) /\
  (considersFallback pb selector cause = false ->
   ok = true /\
   (inFallback pb = false ->
    protocol pb' = Current selector /\
    inFallback pb' = false /\
    BackoffHandler pb' = BackoffHandler pb) /\
   (inFallback pb = true -> pb' = pb)).
Proof.
  unfold selectNextProtocol, considersFallback.
  destruct (Fallback selector) as [fb hasFallback]; simpl.
  destruct (retry.ReachedMaxRetries (BackoffHandler pb) ||
            hasFallback && isQuicBroken cause) eqn:Hconsider.
  - intros Hcall. split; [intros _ | discriminate].
    destruct hasFallback; simpl in Hcall.
    + destruct (decide (protocol pb = fb)) as [Heq | Hne];
        injection Hcall as <- <- <-.
      * split; [intros _ Hne; contradiction | intros _; now split].
      * split; [intros _ _; repeat split | intros [Hno | Heq]; [discriminate | contradiction]].
    + injection Hcall as <- <- <-.
      split; [discriminate | intros _; now split].
  - intros Hcall. split; [discriminate | intros _].
    destruct (inFallback pb) eqn:Hin; simpl in Hcall.
    + injection Hcall as <- <- <-.
      split; [reflexivity | split; [discriminate | reflexivity]].
    + destruct (decide (protocol pb <> Current selector)) as [Hne | Heq];
        injection Hcall as <- <- <-.
      * split; [reflexivity | split; [intros _; now repeat split | discriminate]].
      * split; [reflexivity | split; [intros _ | discriminate]].
        repeat split; try assumption.
        destruct (decide (protocol pb = Current selector)); [assumption | contradiction].
Qed.

Lemma selectNextProtocol_decision_witness :
  selectNextProtocol [] (slotOn QUIC false 3) quicWithFallback (Some connectionRefused)
  = ([InfoSwitchingToFallback HTTP2], fallback (slotOn QUIC false 3) HTTP2, true) /\
  considersFallback (slotOn QUIC false 3) quicWithFallback (Some connectionRefused) = true /\
  snd (Fallback quicWithFallback) = true /\
  protocol (slotOn QUIC false 3) <> fst (Fallback quicWithFallback) /\
  protocol (fallback (slotOn QUIC false 3) HTTP2) = fst (Fallback quicWithFallback).
Proof.
  assert (Hcall : selectNextProtocol [] (slotOn QUIC false 3) quicWithFallback
                    (Some connectionRefused)
                  = ([InfoSwitchingToFallback HTTP2],
                     fallback (slotOn QUIC false 3) HTTP2, true)) by reflexivity.
  assert (Hne : protocol (slotOn QUIC false 3) <> fst (Fallback quicWithFallback))
    by (simpl; discriminate).
  split; [exact Hcall | split; [reflexivity | split; [reflexivity | split; [exact Hne |]]]].
  destruct (selectNextProtocol_decision _ _ _ _ _ _ _ Hcall) as [Hconsidered _].
  destruct (Hconsidered eq_refl) as [Hswitch _].
  destruct (Hswitch eq_refl Hne) as (_ & Hprotocol & _).
  exact Hprotocol.
Defined.

(** C1 as stated fails twice.  A slot already on the fallback protocol that
    reaches its retry ceiling, with a fallback reported, is not switched and
    its retries are not cleared: the picker gives up.  And a slot on the
    fallback protocol below the ceiling is not given up on: the picker
    continues. *)
Lemma selectNextProtocol_decision_counterexample :
  (retry.ReachedMaxRetries (BackoffHandler (slotOn HTTP2 true 3)) = true /\
   Fallback quicWithFallback = (HTTP2, true) /\
   isQuicBroken (Some connectionRefused) = false /\
   selectNextProtocol [] (slotOn HTTP2 true 3) quicWithFallback (Some connectionRefused)
   = ([], slotOn HTTP2 true 3, false)) /\
  (retry.ReachedMaxRetries (BackoffHandler (slotOn HTTP2 true 1)) = false /\
   protocol (slotOn HTTP2 true 1) = fst (Fallback quicWithFallback) /\
   selectNextProtocol [] (slotOn HTTP2 true 1) quicWithFallback (Some connectionRefused)
   = ([], slotOn HTTP2 true 1, true)).
Proof. repeat split. Qed.




(** ** serveTunnel *)

(** C6: the error [serveConnection] returns decides what [serveTunnel]
    returns and whether it is retryable, whatever flag came with it: a
    duplicate registration is returned, not retryable; of a server-side
    registration error the cause is returned, retryable exactly when the
    server did not mark it permanent; an [EdgeQuicDialError] is returned,
    not retryable; on a [ReconnectSignal] the worker sleeps the carried
    delay and the signal is returned, retryable; [context.Canceled] and an
    [unrecoverableError] are returned, not retryable; any other error is
    returned, retryable. *)
Theorem serveTunnel_error_mapping {H : Type} (o : Outcome) (stack : string)
    (connIndex : Z) (st : state H) (err : error) (recoverable : bool) :
  result o = returns (Some err) recoverable ->
  let '(st', (returned, retryable)) := serveTunnel o stack connIndex st in
  match err with
  | DupConnRegisterTunnelError => returned = Some err /\ retryable = false
  | ServerRegisterTunnelError Cause Permanent =>
      returned = Some Cause /\ retryable = negb Permanent
  | EdgeQuicDialError _ => returned = Some err /\ retryable = false
  | ReconnectSignal Delay =>
      returned = Some err /\ retryable = true /\
      events st' = (events st ++ [Sleep Delay; SendDisconnect connIndex])%list
  | contextCanceled => returned = Some err /\ retryable = false
  | unrecoverableError _ => returned = Some err /\ retryable = false
  | _ => returned = Some err /\ retryable = true
  end.
Proof.
  intros Hres. unfold serveTunnel, serveConnection. rewrite Hres.
  destruct err; simpl; repeat split.
  unfold DelayBeforeReconnect, emit. now rewrite <- app_assoc.
Qed.

Lemma serveTunnel_error_mapping_witness :
  let o := {| connects := true;
              result := returns (Some (ServerRegisterTunnelError
                                         (errorString "tunnel not found") true)) true |} in
  let st := mkState (NewIPAddrFallback 3) (slotOn QUIC false 1) None [] in
  result o = returns (Some (ServerRegisterTunnelError
                              (errorString "tunnel not found") true)) true /\
  snd (serveTunnel o "" 0 st) = (Some (errorString "tunnel not found"), false).
Proof.
  cbv zeta. split; [reflexivity |].
  pose proof (serveTunnel_error_mapping
                {| connects := true;
                   result := returns (Some (ServerRegisterTunnelError
                                              (errorString "tunnel not found") true)) true |}
                "" 0 (mkState (NewIPAddrFallback 3) (slotOn QUIC false 1) None [])
                _ _ eq_refl) as Hmap.
  destruct (serveTunnel _ "" 0 _) as [st' [returned retryable]].
  destruct Hmap as [-> ->]. reflexivity.
Defined.

(** C8: a panic of the serve body is recovered.  [serveTunnel] returns the
    panic value, as the error it is or as an error made from its rendering,
    wrapped with the stack trace, and returns it as recoverable; the
    disconnect is still reported. *)
Theorem serveTunnel_recovers_panic {H : Type} (o : Outcome) (stack : string)
    (connIndex : Z) (st : state H) (r : PanicValue) :
  result o = panics r ->
  exists cause : error,
    snd (serveTunnel o stack connIndex st)
    = (Some (withMessage cause ("stack trace: " ++ stack)), true) /\
    cause = match r with
            | panicError err => err
            | panicValue v => errorString ("ServeTunnel: " ++ v)
            end /\
    events (fst (serveTunnel o stack connIndex st))
    = (events st ++ [SendDisconnect connIndex])%list.
Proof.
  intros Hres. unfold serveTunnel, serveConnection. rewrite Hres.
  eexists. repeat split.
Qed.

Lemma serveTunnel_recovers_panic_witness :
  let o := {| connects := false;
              result := panics (panicValue "runtime error: index out of range") |} in
  let st := mkState (NewIPAddrFallback 3) (slotOn QUIC false 1) None [] in
  result o = panics (panicValue "runtime error: index out of range") /\
  exists cause : error,
    snd (serveTunnel o "goroutine 1 [running]" 0 st)
    = (Some (withMessage cause "stack trace: goroutine 1 [running]"), true) /\
    cause = errorString "ServeTunnel: runtime error: index out of range" /\
    events (fst (serveTunnel o "goroutine 1 [running]" 0 st)) = [SendDisconnect 0].
Proof.
  cbv zeta. split; [reflexivity |].
  exact (serveTunnel_recovers_panic
           {| connects := false;
              result := panics (panicValue "runtime error: index out of range") |}
           "goroutine 1 [running]" 0
           (mkState (NewIPAddrFallback 3) (slotOn QUIC false 1) None [])
           _ eq_refl).
Defined.

(** What [serveTunnel] does to the state it works on: the backoff is reset if
    the control stream reported the connection, the fuse is set then, and
    the error classifier is out of its reach. *)
Lemma serveTunnel_state {H : Type} (o : Outcome) (stack : string)
    (connIndex : Z) (st : state H) :
  edgeAddrHandler (fst (serveTunnel o stack connIndex st)) = edgeAddrHandler st /\
  slotFallback (fst (serveTunnel o stack connIndex st))
  = (if connects o then reset (slotFallback st) else slotFallback st) /\
  slotFuse (fst (serveTunnel o stack connIndex st))
  = (if connects o then Fuse true (slotFuse st) else slotFuse st).
Proof.
  unfold serveTunnel, serveConnection.
  destruct (connects o); simpl;
    destruct (result o) as [[err |] recoverable | r]; simpl;
    try destruct err; simpl; repeat split.
Qed.

(** ** The connected callback *)

(** C5, as the code has it: when the control stream reports the connection,
    the fuse reads connected and the backoff is reset, that is, the retry
    count is zero and [inFallback] is false, on the same protocol.  The
    error classifier is not reached by the callback: the rotation counters
    keep the values they had. *)
Theorem Connected_resets_backoff_only {H : Type} (o : Outcome) (stack : string)
    (connIndex : Z) (st : state H) (cf : connectedFuse) :
  (fuse cf = newBooleanFuse -> IsConnected (Connected cf) = true) /\
  retry.Retries (BackoffHandler (backoff (Connected cf))) = 0 /\
  inFallback (backoff (Connected cf)) = false /\
  protocol (backoff (Connected cf)) = protocol (backoff cf) /\
  (connects o = true ->
   slotFallback (fst (serveTunnel o stack connIndex st))
   = backoff (Connected {| fuse := slotFuse st; backoff := slotFallback st |})) /\
  edgeAddrHandler (fst (serveTunnel o stack connIndex st)) = edgeAddrHandler st.
Proof.
  destruct (serveTunnel_state o stack connIndex st) as (Hhandler & Hfallback & _).
  repeat split; try assumption.
  - intros Hfuse. unfold IsConnected, Connected; simpl. now rewrite Hfuse.
  - intros Hc. rewrite Hfallback, Hc. reflexivity.
Qed.

Lemma Connected_resets_backoff_only_witness :
  let st := slotState (slotOn HTTP2 true 2) (setRetries (NewIPAddrFallback 3) 0 1) in
  let st' := fst (serveTunnel (connectsThenFails endOfStream) "" 0 st) in
  connects (connectsThenFails endOfStream) = true /\
  slotFallback st' = slotOn HTTP2 false 0 /\
  edgeAddrHandler st' = setRetries (NewIPAddrFallback 3) 0 1.
Proof.
  cbv zeta.
  destruct (Connected_resets_backoff_only (connectsThenFails endOfStream) "" 0
              (slotState (slotOn HTTP2 true 2) (setRetries (NewIPAddrFallback 3) 0 1))
              {| fuse := None; backoff := slotOn HTTP2 true 2 |})
    as (_ & _ & _ & _ & Hreset & Hhandler).
  split; [reflexivity | split].
  - rewrite (Hreset eq_refl). reflexivity.
  - exact Hhandler.
Defined.

(** C5 as stated fails on the rotation counter.  Slot 0 fails to dial once,
    so its counter is 1; on the next attempt it connects and later loses the
    connection.  The connect has reset the backoff and set the fuse, but the
    counter of slot 0 is still 1, and the next dial failure counts on from
    there. *)
Lemma Connected_resets_backoff_only_counterexample :
  Serve (attempt (fails quicDialFailed true) nobodyConnected timerOnly) 0
        (slotState (slotOn QUIC false 1) (NewIPAddrFallback 3))
  = [(mkState (setRetries (NewIPAddrFallback 3) 0 1) (slotOn QUIC false 2)
              (Some false) [SendDisconnect 0; SendReconnect 0],
      Some quicDialFailed)] /\
  Serve (attempt (connectsThenFails endOfStream) connectedWithQUIC timerOnly) 0
        (slotState (slotOn QUIC false 2) (setRetries (NewIPAddrFallback 3) 0 1))
  = [(mkState (setRetries (NewIPAddrFallback 3) 0 1) (slotOn QUIC false 1)
              (Some true) [SendDisconnect 0; SendReconnect 0],
      Some endOfStream)] /\
  retriesOf (setRetries (NewIPAddrFallback 3) 0 1) 0 = 1 /\
  retriesOf (fst (ShouldGetNewAddress (setRetries (NewIPAddrFallback 3) 0 1) 0
                    (Some quicDialFailed))) 0 = 2.
Proof. repeat split. Qed.

(** ** The wait *)

Lemma fires_earliest (sig : Signals) (arm : WaitArm) :
  fires sig arm = true <->
  exists t : Z,
    armTime sig arm = Some t /\
    forall (other : WaitArm) (u : Z), armTime sig other = Some u -> t <= u.
Proof.
  unfold fires, noneBefore. split.
  - destruct (armTime sig arm) as [t |] eqn:Harm; [| discriminate].
    intros Hall. exists t. split; [reflexivity |].
    intros other u Hother.
    rewrite forallb_forall in Hall.
    assert (Hin : In other selectCases) by (destruct other; simpl; auto).
    specialize (Hall other Hin). rewrite Hother in Hall. lia.
  - intros (t & -> & Hmin). apply forallb_forall. intros other _.
    destruct (armTime sig other) as [u |] eqn:Hother; [| reflexivity].
    specialize (Hmin other u Hother). lia.
Qed.

Lemma selectReady_fires (sig : Signals) (arm : WaitArm) :
  In arm (selectReady sig) <-> fires sig arm = true.
Proof.
  unfold selectReady. rewrite filter_In. split; [tauto |].
  intros Hf. split; [destruct arm; simpl; auto | exact Hf].
Qed.


(** The reconnect channel is not among the cases: when it becomes ready
    changes nothing. *)
Lemma selectReady_ignores_reconnect (sig : Signals) (reconnect : option Z) :
  selectReady {| ctxDoneAt := ctxDoneAt sig;
                 gracefulShutdownAt := gracefulShutdownAt sig;
                 timerAt := timerAt sig;
                 reconnectAt := reconnect |}
  = selectReady sig.
Proof. reflexivity. Qed.

(** ** Serve *)

Section ServeFacts.
Context {H S : Type} `{EdgeAddrHandler H} `{ProtocolSelector S}.

(** Up to the wait, the slot's protocol state changes only by the reset of a
    connect. *)
Lemma Serve_attempt_fallback (e : Inputs S) (connIndex : Z) (st : state H) :
  let pf := match Serve_attempt e connIndex st with
            | Returned st1 _ => slotFallback st1
            | Waiting st1 _ _ => slotFallback st1
            end in
  pf = slotFallback st \/ (connects (served e) = true /\ pf = reset (slotFallback st)).
Proof.
  unfold Serve_attempt.
  destruct (GetAddr e); [left; reflexivity |].
  match goal with
  | |- context [serveTunnel ?o ?s ?i ?x] =>
      pose proof (serveTunnel_state o s i x) as (_ & Hpf & _);
      destruct (serveTunnel o s i x) as [st1 [err should]]
  end.
  simpl in Hpf.
  destruct (handlerShouldGetNewAddress (edgeAddrHandler st1) connIndex err)
    as [handler [rotate cErr]].
  assert (Hcase : slotFallback st1 = slotFallback st \/
                  (connects (served e) = true /\ slotFallback st1 = reset (slotFallback st))).
  { rewrite Hpf. destruct (connects (served e)); [right; now split | now left]. }
  destruct rotate; [destruct (GetDifferentAddr e) |]; simpl; try exact Hcase;
    destruct (negb (retry.GetMaxBackoffDuration (BackoffHandler (slotFallback st1))));
    exact Hcase.
Qed.

(** When the tracker has seen a connection with the selected protocol, no
    case of the [select] changes the slot's protocol or [inFallback], and
    the timer case returns the error of the attempt. *)
Lemma Serve_select_suppressed (e : Inputs S) (st : state H) (err : option error)
    (shouldFallbackProtocol : bool) (arm : WaitArm) :
  HasConnectedWith e (Current (selector e)) = true ->
  protocol (slotFallback (fst (Serve_select e st err shouldFallbackProtocol arm)))
  = protocol (slotFallback st) /\
  inFallback (slotFallback (fst (Serve_select e st err shouldFallbackProtocol arm)))
  = inFallback (slotFallback st) /\
  events (fst (Serve_select e st err shouldFallbackProtocol arm)) = events st /\
  snd (Serve_select e st err shouldFallbackProtocol backoffTimer) = err.
Proof.
  intros Hseen. unfold Serve_select. rewrite Hseen.
  destruct arm, shouldFallbackProtocol; simpl; repeat split.
Qed.

(** C4: while the tracker reports a connection with the selector's current
    protocol, no call of [Serve] moves the slot to the fallback protocol,
    whatever its retry count.  The wait leaves the slot's protocol and
    [inFallback] as the attempt left them and the protocol picker is not
    run; over the whole call the protocol is the one the slot had, and
    [inFallback] is what it was, or false after a connect during the call:
    it is never set.  The slot's next attempt is on the same protocol. *)
Theorem Serve_suppresses_fallback (e : Inputs S) (connIndex : Z) (st : state H)
    (r : state H * option error) :
  HasConnectedWith e (Current (selector e)) = true ->
  In r (Serve e connIndex st) ->
  protocol (slotFallback (fst r)) = protocol (slotFallback st) /\
  (inFallback (slotFallback (fst r)) = true -> inFallback (slotFallback st) = true) /\
  (connects (served e) = false ->
   inFallback (slotFallback (fst r)) = inFallback (slotFallback st)) /\
  (forall (st1 : state H) (err : option error) (shouldFallbackProtocol : bool),
     Serve_attempt e connIndex st = Waiting st1 err shouldFallbackProtocol ->
     protocol (slotFallback (fst r)) = protocol (slotFallback st1) /\
     inFallback (slotFallback (fst r)) = inFallback (slotFallback st1) /\
     events (fst r) = events st1).
Proof.
  intros Hseen Hin. unfold Serve in Hin.
  pose proof (Serve_attempt_fallback e connIndex st) as Hatt. cbv zeta in Hatt.
  assert (Hgoal : forall pf : protocolFallback,
            (pf = slotFallback st \/
             (connects (served e) = true /\ pf = reset (slotFallback st))) ->
            protocol pf = protocol (slotFallback st) /\
            (inFallback pf = true -> inFallback (slotFallback st) = true) /\
            (connects (served e) = false -> inFallback pf = inFallback (slotFallback st))).
  { intros pf [-> | [Hc ->]]; simpl.
    - repeat split; auto.
    - repeat split; [discriminate | congruence]. }
  destruct (Serve_attempt e connIndex st) as [st1 err | st1 err should].
  - destruct Hin as [<- | []]. simpl.
    destruct (Hgoal _ Hatt) as (Hp & Hset & Hkeep).
    repeat split; try assumption; discriminate.
  - apply in_map_iff in Hin as (arm & <- & _).
    destruct (Serve_select_suppressed e st1 err should arm Hseen)
      as (Hprotocol & HinFallback & Hevents & _).
    destruct (Serve_select e st1 err should arm) as [st2 err2].
    simpl in *. rewrite Hprotocol, HinFallback.
    destruct (Hgoal _ Hatt) as (Hp & Hset & Hkeep).
    split; [exact Hp | split; [exact Hset | split; [exact Hkeep |]]].
    intros st1' err' should' [= <- _ _]. repeat split. exact Hevents.
Qed.

(** C7, as the code has it: after a failed attempt the worker waits for the
    earliest of the backoff timer, the cancellation of the context and the
    graceful-shutdown signal, and for nothing else.  When the context is
    done it returns the context's error, on graceful shutdown it returns
    nil; in both cases the protocol picker is not run. *)
Theorem Serve_wait (e : Inputs S) (connIndex : Z) (st st1 : state H)
    (err : option error) (shouldFallbackProtocol : bool) :
  Serve_attempt e connIndex st = Waiting st1 err shouldFallbackProtocol ->
  (forall r : state H * option error,
     In r (Serve e connIndex st) <->
     exists (arm : WaitArm) (t : Z),
       armTime (signals e) arm = Some t /\
       (forall (other : WaitArm) (u : Z),
          armTime (signals e) other = Some u -> t <= u) /\
       r = Serve_return (Serve_select e st1 err shouldFallbackProtocol arm)) /\
  (let r := Serve_return (Serve_select e st1 err shouldFallbackProtocol ctx_Done) in
   snd r = Some (ctxErr e) /\
   protocol (slotFallback (fst r)) = protocol (slotFallback st1) /\
   inFallback (slotFallback (fst r)) = inFallback (slotFallback st1) /\
   events (fst r) = events st1) /\
  (let r := Serve_return
              (Serve_select e st1 err shouldFallbackProtocol gracefulShutdownC) in
   snd r = None /\
   protocol (slotFallback (fst r)) = protocol (slotFallback st1) /\
   inFallback (slotFallback (fst r)) = inFallback (slotFallback st1) /\
   events (fst r) = events st1).
Proof.
  intros Hatt. split; [| split; cbv zeta; simpl; repeat split].
  intros r. unfold Serve. rewrite Hatt, in_map_iff. split.
  - intros (arm & <- & Hready).
    apply selectReady_fires, fires_earliest in Hready as (t & Harm & Hmin).
    exists arm, t. repeat split; assumption.
  - intros (arm & t & Harm & Hmin & ->). exists arm. split; [reflexivity |].
    apply selectReady_fires, fires_earliest. exists t. split; assumption.
Qed.

End ServeFacts.

Lemma Serve_suppresses_fallback_witness :
  let e := attempt (fails IdleTimeoutError true) connectedWithQUIC timerOnly in
  let st := slotState (slotOn QUIC false 2) (NewIPAddrFallback 3) in
  let r := (mkState (NewIPAddrFallback 3) (slotOn QUIC false 3) (Some false)
                    [SendDisconnect 1; SendReconnect 1],
            Some IdleTimeoutError) in
  HasConnectedWith e (Current (selector e)) = true /\
  In r (Serve e 1 st) /\
  retry.ReachedMaxRetries (BackoffHandler (slotFallback (fst r))) = true /\
  protocol (slotFallback (fst r)) = QUIC.
Proof.
  cbv zeta.
  assert (Hin : In (mkState (NewIPAddrFallback 3) (slotOn QUIC false 3) (Some false)
                            [SendDisconnect 1; SendReconnect 1],
                    Some IdleTimeoutError)
                   (Serve (attempt (fails IdleTimeoutError true) connectedWithQUIC timerOnly)
                          1 (slotState (slotOn QUIC false 2) (NewIPAddrFallback 3))))
    by (left; reflexivity).
  split; [reflexivity | split; [exact Hin | split; [reflexivity |]]].
  exact (proj1 (Serve_suppresses_fallback
                  (attempt (fails IdleTimeoutError true) connectedWithQUIC timerOnly)
                  1 _ _ eq_refl Hin)).
Defined.

(** Without the tracker's report the same attempt does move the slot to
    HTTP/2. *)
Example Serve_falls_back_when_nobody_connected :
  Serve (attempt (fails IdleTimeoutError true) nobodyConnected timerOnly) 1
        (slotState (slotOn QUIC false 2) (NewIPAddrFallback 3))
  = [(mkState (NewIPAddrFallback 3) (slotOn HTTP2 true 0) (Some false)
              [SendDisconnect 1; SendReconnect 1; WarnUDPEgressBlocked;
               InfoSwitchingToFallback HTTP2],
      Some IdleTimeoutError)].
Proof. reflexivity. Qed.

Lemma Serve_wait_witness :
  let e := attempt (fails IdleTimeoutError true) nobodyConnected cancelledFirst in
  let st := slotState (slotOn QUIC false 2) (NewIPAddrFallback 3) in
  let st1 := mkState (NewIPAddrFallback 3) (slotOn QUIC false 2) None
                     [SendDisconnect 0; SendReconnect 0] in
  Serve_attempt e 0 st = Waiting st1 (Some IdleTimeoutError) true /\
  In (mkState (NewIPAddrFallback 3) (slotOn QUIC false 3) (Some false)
              [SendDisconnect 0; SendReconnect 0],
      Some contextCanceled)
     (Serve e 0 st).
Proof.
  cbv zeta.
  assert (Hatt : Serve_attempt
                   (attempt (fails IdleTimeoutError true) nobodyConnected cancelledFirst)
                   0 (slotState (slotOn QUIC false 2) (NewIPAddrFallback 3))
                 = Waiting (mkState (NewIPAddrFallback 3) (slotOn QUIC false 2) None
                                    [SendDisconnect 0; SendReconnect 0])
                           (Some IdleTimeoutError) true) by reflexivity.
  split; [exact Hatt |].
  apply (proj1 (Serve_wait _ 0 _ _ _ _ Hatt)).
  exists ctx_Done, 2. split; [reflexivity | split; [| reflexivity]].
  intros other u. destruct other; simpl; intros Hu; inversion Hu; lia.
Defined.

(** C7 as stated fails on the reconnect signal: it is not one of the events
    the wait ends on.  With a reconnect signal at 10 and the timer at 30 the
    earliest of the four events is at 10, but the wait ends at 30, by the
    timer; and with a reconnect signal alone the wait never ends. *)
Lemma Serve_wait_counterexample :
  specWakeTime reconnectFirst = Some 10 /\
  wakeTime reconnectFirst = Some 30 /\
  selectReady reconnectFirst = [backoffTimer] /\
  specWakeTime reconnectOnly = Some 10 /\
  Serve (attempt (fails endOfStream false) nobodyConnected reconnectOnly) 0
        (slotState (slotOn QUIC false 0) (NewIPAddrFallback 3)) = [].
Proof. repeat split. Qed.

(** ** The edge dialer *)

Section DialEdgeFacts.
Import edgediscovery.

(** C9: the dialer puts a deadline on the TLS connection before the
    handshake, the handshake runs under it, and after a successful handshake
    the deadline is cleared before the connection is returned.  A failed TCP
    dial and a failed handshake are both returned as a [DialError] that
    wraps the error that caused them, and no connection is returned then. *)
Theorem DialEdge_deadline_and_errors (net : Network) (timeout : Z)
    (edgeTCPAddr : string) (localIP : option string) :
  let dialled :=
    if hasDialContext net
    then DialContext net localIP timeout edgeTCPAddr
    else Dial net localIP edgeTCPAddr in
  let underDeadline :=
    {| remote := edgeTCPAddr;
       deadline := Some (Now net + timeout);
       ops := [SetDeadline (Some (Now net + timeout))] |} in
  (dialled = None -> tlsHandshake net underDeadline = None ->
   exists conn : Conn,
     DialEdge net timeout edgeTCPAddr localIP = (Some conn, None) /\
     deadline conn = None /\
     ops conn = [SetDeadline (Some (Now net + timeout));
                 Handshake (Some (Now net + timeout));
                 SetDeadline None]) /\
  (forall err : error,
     snd (DialEdge net timeout edgeTCPAddr localIP) = Some err ->
     fst (DialEdge net timeout edgeTCPAddr localIP) = None /\
     exists (cause : error) (message : string),
       err = DialError (withMessage cause message) /\
       Cause err = Some (withMessage cause message) /\
       ((dialled = Some cause /\ message = "DialContext error") \/
        (dialled = None /\ tlsHandshake net underDeadline = Some cause /\
         message = "TLS handshake with edge error"))) /\
  (forall cause : error,
     dialled = Some cause \/
     (dialled = None /\ tlsHandshake net underDeadline = Some cause) ->
     exists message : string,
       DialEdge net timeout edgeTCPAddr localIP
       = (None, Some (DialError (withMessage cause message)))).
Proof.
  cbv zeta. unfold DialEdge, handshake, setDeadline, tlsClient, newDialError. simpl.
  destruct (if hasDialContext net
            then DialContext net localIP timeout edgeTCPAddr
            else Dial net localIP edgeTCPAddr) as [dialErr |]; simpl.
  - split; [discriminate | split].
    + intros err [= <-]. split; [reflexivity |].
      exists dialErr, "DialContext error". repeat split. left. now split.
    + intros cause [[= ->] | [Hd _]]; [| discriminate].
      eexists. reflexivity.
  - destruct (tlsHandshake net _) as [tlsErr |]; simpl.
    + split; [discriminate | split].
      * intros err [= <-]. split; [reflexivity |].
        exists tlsErr, "TLS handshake with edge error". repeat split.
        right. repeat split.
      * intros cause [Hd | [_ [= ->]]]; [discriminate |].
        eexists. reflexivity.
    + split; [| split].
      * intros _ _. eexists. repeat split.
      * discriminate.
      * intros cause [Hd | [_ Hh]]; discriminate.
Qed.

Lemma DialEdge_deadline_and_errors_witness :
  snd (DialEdge slowHandshake 15 "198.41.192.7:7844" None)
  = Some (DialError (withMessage (errorString "i/o timeout")
                                 "TLS handshake with edge error")) /\
  fst (DialEdge slowHandshake 15 "198.41.192.7:7844" None) = None /\
  Cause (DialError (withMessage (errorString "i/o timeout")
                                "TLS handshake with edge error"))
  = Some (withMessage (errorString "i/o timeout") "TLS handshake with edge error").
Proof.
  assert (Hfail : snd (DialEdge slowHandshake 15 "198.41.192.7:7844" None)
                  = Some (DialError (withMessage (errorString "i/o timeout")
                                                 "TLS handshake with edge error")))
    by reflexivity.
  split; [exact Hfail |].
  destruct (DialEdge_deadline_and_errors slowHandshake 15 "198.41.192.7:7844" None)
    as (_ & Herr & _).
  destruct (Herr _ Hfail) as (Hnone & cause & message & Heq & Hcause & _).
  split; [exact Hnone |].
  rewrite Hcause. injection Heq as <- <-. reflexivity.
Defined.

End DialEdgeFacts.

(** * Further properties of the code *)

(** ** The classifier over time *)

(** [ShouldGetNewAddress] counts the dial failures of a slot up to
    [maxRetries] and reports the ceiling on the failure after those: from a
    counter at zero, each of the first [maxRetries] dial failures in a row
    asks for a new address with a connectivity error that has not reached
    the ceiling, and the next one reports the ceiling and puts the counter
    back to zero, so that the cycle starts again. *)
Theorem ShouldGetNewAddress_exhaustion_cycle (f : ipAddrFallback) (connIndex : Z)
    (err : error) :
  isDialFailure (Some err) = true ->
  retriesOf f connIndex = 0 ->
  0 <= maxRetries f <= 255 ->
  (forall k : nat,
     Z.of_nat k < maxRetries f ->
     snd (ShouldGetNewAddress (dialFailures k f connIndex err) connIndex (Some err))
     = (true, Some (ConnectivityError false)) /\
     retriesOf (dialFailures (S k) f connIndex err) connIndex = Z.of_nat k + 1) /\
  (forall exhausted : ipAddrFallback,
     exhausted = dialFailures (Z.to_nat (maxRetries f)) f connIndex err ->
     snd (ShouldGetNewAddress exhausted connIndex (Some err))
     = (true, Some (ConnectivityError true)) /\
     retriesOf (dialFailures (S (Z.to_nat (maxRetries f))) f connIndex err) connIndex = 0).
Proof.
  intros Hd Hzero Hmax. split.
  - intros k Hk.
    assert (Hcount : retriesOf (dialFailures k f connIndex err) connIndex = Z.of_nat k)
      by (apply dialFailures_count; try assumption; lia).
    assert (Hm : maxRetries (dialFailures k f connIndex err) = maxRetries f)
      by apply dialFailures_maxRetries.
    split.
    + destruct err; simpl in Hd; try discriminate; simpl;
        rewrite Hm, Hcount;
        destruct (Z.leb_spec (maxRetries f) (Z.of_nat k)); try lia; reflexivity.
    + rewrite dialFailures_count by (try assumption; lia). lia.
  - intros exhausted ->.
    destruct (dialFailures_latch f connIndex err Hd Hzero Hmax) as [Hflag Hreset].
    split; [exact Hflag | exact Hreset].
Qed.

Lemma ShouldGetNewAddress_exhaustion_cycle_witness :
  isDialFailure (Some quicDialFailed) = true /\
  retriesOf (NewIPAddrFallback 2) 0 = 0 /\
  0 <= maxRetries (NewIPAddrFallback 2) <= 255 /\
  snd (ShouldGetNewAddress (dialFailures 1 (NewIPAddrFallback 2) 0 quicDialFailed) 0
         (Some quicDialFailed))
  = (true, Some (ConnectivityError false)) /\
  snd (ShouldGetNewAddress (dialFailures 2 (NewIPAddrFallback 2) 0 quicDialFailed) 0
         (Some quicDialFailed))
  = (true, Some (ConnectivityError true)).
Proof.
  assert (Hzero : retriesOf (NewIPAddrFallback 2) 0 = 0) by reflexivity.
  assert (Hmax : 0 <= maxRetries (NewIPAddrFallback 2) <= 255) by (simpl; lia).
  destruct (ShouldGetNewAddress_exhaustion_cycle (NewIPAddrFallback 2) 0 quicDialFailed
              eq_refl Hzero Hmax) as [Hbelow Hat].
  split; [reflexivity | split; [exact Hzero | split; [exact Hmax | split]]].
  - apply (Hbelow 1%nat). simpl. lia.
  - apply (Hat _ eq_refl).
Defined.

(** Whatever it classifies, [ShouldGetNewAddress] keeps the classifier well
    formed: [maxRetries] is never changed, the counters of the other slots
    are not touched, counters stay within a [uint8], and the counter of the
    slot stays between zero and [maxRetries]. *)
Theorem ShouldGetNewAddress_keeps_classifier (f : ipAddrFallback) (connIndex : Z)
    (err : option error) :
  maxRetries f <= 255 ->
  0 <= retriesOf f connIndex <= maxRetries f ->
  let f' := fst (ShouldGetNewAddress f connIndex err) in
  maxRetries f' = maxRetries f /\
  0 <= retriesOf f' connIndex <= maxRetries f /\
  (forall slot : Z, slot <> connIndex ->
     retriesByConnIndex f' !! slot = retriesByConnIndex f !! slot) /\
  (countersInRange f -> countersInRange f').
Proof.
  intros Hmax Hcount. cbv zeta. split; [| split; [| split]].
  - destruct err as [[] |]; simpl; try reflexivity;
      destruct (_ <=? _); reflexivity.
  - destruct err as [[] |]; simpl; try assumption;
      destruct (Z.leb_spec (maxRetries f) (retriesOf f connIndex));
      cbn [fst]; rewrite retriesOf_setRetries; try lia;
      rewrite incr8_small; lia.
  - intros slot Hne.
    destruct err as [[] |]; simpl; try reflexivity;
      destruct (_ <=? _); simpl;
      (rewrite lookup_insert_ne; [reflexivity | congruence]).
  - apply ShouldGetNewAddress_range.
Qed.

Lemma ShouldGetNewAddress_keeps_classifier_witness :
  maxRetries (setRetries (NewIPAddrFallback 3) 1 3) <= 255 /\
  0 <= retriesOf (setRetries (NewIPAddrFallback 3) 1 3) 0
    <= maxRetries (setRetries (NewIPAddrFallback 3) 1 3) /\
  retriesByConnIndex
    (fst (ShouldGetNewAddress (setRetries (NewIPAddrFallback 3) 1 3) 0
            (Some connectionRefused))) !! 1
  = Some 3.
Proof.
  assert (Hmax : maxRetries (setRetries (NewIPAddrFallback 3) 1 3) <= 255)
    by (simpl; lia).
  assert (Hcount : 0 <= retriesOf (setRetries (NewIPAddrFallback 3) 1 3) 0
                   <= maxRetries (setRetries (NewIPAddrFallback 3) 1 3))
    by (vm_compute; split; discriminate).
  split; [exact Hmax | split; [exact Hcount |]].
  destruct (ShouldGetNewAddress_keeps_classifier
              (setRetries (NewIPAddrFallback 3) 1 3) 0 (Some connectionRefused)
              Hmax Hcount) as (_ & _ & Hother & _).
  rewrite (Hother 1); [reflexivity | discriminate].
Defined.

(** ** What counts as QUIC-broken *)

(** [isQuicBroken] holds exactly when the chain of wrapped errors contains a
    QUIC idle timeout, or contains a QUIC transport error while the text of
    the whole cause has the phrase "operation not permitted". *)
Theorem isQuicBroken_chain (cause : error) :
  isQuicBroken (Some cause) = true <->
  In IdleTimeoutError (chain cause) \/
  exists text : string,
    In (TransportError text) (chain cause) /\
    Contains (Error cause) "operation not permitted" = true.
Proof.
  split; [apply isQuicBroken_inv |].
  intros [Hidle | (text & Hin & Htext)]; unfold isQuicBroken.
  - now rewrite (errorsAs_chain isIdleTimeoutError cause IdleTimeoutError).
  - rewrite (errorsAs_chain isTransportError cause (TransportError text)) by easy.
    rewrite Htext. now destruct (errorsAs isIdleTimeoutError (Some cause)).
Qed.

Section DialErrorFacts.
Import edgediscovery.

(** A [DialError] and an [unrecoverableError] keep their cause behind
    [Cause()] or a private field, out of the reach of [errors.As]: such an
    error is never QUIC-broken, whatever it wraps.  So an error returned by
    [DialEdge] makes the protocol picker consider the fallback only when the
    retry ceiling has been reached. *)
Theorem DialEdge_error_not_quic_broken {S : Type} `{ProtocolSelector S}
    (net : Network) (timeout : Z) (edgeTCPAddr : string) (localIP : option string)
    (err : error) (pb : protocolFallback) (selector : S) :
  snd (DialEdge net timeout edgeTCPAddr localIP) = Some err ->
  isQuicBroken (Some err) = false /\
  isQuicBroken (Some (unrecoverableError err)) = false /\
  considersFallback pb selector (Some err)
  = retry.ReachedMaxRetries (BackoffHandler pb).
Proof.
  intros Hfail.
  assert (Hdial : exists cause, err = DialError cause).
  { revert Hfail. unfold DialEdge, handshake, newDialError.
    destruct (if hasDialContext net then _ else _) as [dialErr |]; simpl.
    - intros [= <-]. eexists. reflexivity.
    - destruct (tlsHandshake net _) as [tlsErr |]; simpl; [| discriminate].
      intros [= <-]. eexists. reflexivity. }
  destruct Hdial as [cause ->].
  assert (Hnot : isQuicBroken (Some (DialError cause)) = false) by reflexivity.
  split; [exact Hnot | split; [reflexivity |]].
  unfold considersFallback. rewrite Hnot, andb_false_r, orb_false_r. reflexivity.
Qed.

Lemma DialEdge_error_not_quic_broken_witness :
  snd (DialEdge (unreachableEdge IdleTimeoutError) 15 "198.41.192.7:7844" None)
  = Some (DialError (withMessage IdleTimeoutError "DialContext error")) /\
  isQuicBroken (Some (withMessage IdleTimeoutError "DialContext error")) = true /\
  isQuicBroken (Some (DialError (withMessage IdleTimeoutError "DialContext error")))
  = false.
Proof.
  assert (Hfail : snd (DialEdge (unreachableEdge IdleTimeoutError) 15
                         "198.41.192.7:7844" None)
                  = Some (DialError (withMessage IdleTimeoutError "DialContext error")))
    by reflexivity.
  split; [exact Hfail | split; [reflexivity |]].
  exact (proj1 (DialEdge_error_not_quic_broken
                  (unreachableEdge IdleTimeoutError) 15 "198.41.192.7:7844" None _
                  (slotOn QUIC false 0) quicWithFallback Hfail)).
Defined.

End DialErrorFacts.

(** ** The protocol picker and the slot invariant *)

Lemma selectNextProtocol_consistent {S : Type} `{ProtocolSelector S}
    (connLog connLog' : list Event) (pb pb' : protocolFallback) (selector : S)
    (cause : option error) (ok : bool) :
  selectNextProtocol connLog pb selector cause = (connLog', pb', ok) ->
  fallbackConsistent selector pb ->
  fallbackConsistent selector pb'.
Proof.
  unfold selectNextProtocol, fallbackConsistent.
  destruct (Fallback selector) as [fb hasFallback]; simpl.
  destruct (retry.ReachedMaxRetries (BackoffHandler pb) ||
            hasFallback && isQuicBroken cause).
  - destruct hasFallback; simpl.
    + destruct (decide (protocol pb = fb)); intros [= <- <- <-]; auto.
    + intros [= <- <- <-]; auto.
  - destruct (inFallback pb) eqn:Hin; simpl.
    + intros [= <- <- <-]. rewrite Hin. auto.
    + destruct (decide (protocol pb <> Current selector));
        intros [= <- <- <-] _; simpl; rewrite ?Hin; discriminate.
Qed.

(** The picker keeps the slot sound: a slot in fallback stays on the
    protocol the selector names as the fallback, a give-up leaves the slot
    exactly as it was, and a slot enters fallback only by a switch to the
    fallback the selector reports. *)
Theorem selectNextProtocol_keeps_slot {S : Type} `{ProtocolSelector S}
    (connLog connLog' : list Event) (pb pb' : protocolFallback) (selector : S)
    (cause : option error) (ok : bool) :
  selectNextProtocol connLog pb selector cause = (connLog', pb', ok) ->
  (fallbackConsistent selector pb -> fallbackConsistent selector pb') /\
  (ok = false -> pb' = pb) /\
  (inFallback pb' = true -> inFallback pb = false ->
   ok = true /\ protocol pb' = fst (Fallback selector) /\ snd (Fallback selector) = true).
Proof.
  intros Hcall. split; [exact (selectNextProtocol_consistent _ _ _ _ _ _ _ Hcall) |].
  revert Hcall. unfold selectNextProtocol.
  destruct (Fallback selector) as [fb hasFallback]; simpl.
  destruct (retry.ReachedMaxRetries (BackoffHandler pb) ||
            hasFallback && isQuicBroken cause).
  - destruct hasFallback; simpl.
    + destruct (decide (protocol pb = fb)); intros [= <- <- <-]; simpl;
        repeat split; congruence.
    + intros [= <- <- <-]. repeat split; congruence.
  - destruct (inFallback pb) eqn:Hin; simpl.
    + intros [= <- <- <-]. repeat split; congruence.
    + destruct (decide (protocol pb <> Current selector));
        intros [= <- <- <-]; simpl; repeat split; congruence.
Qed.

Lemma selectNextProtocol_keeps_slot_witness :
  selectNextProtocol [] (slotOn QUIC false 3) quicWithFallback (Some endOfStream)
  = ([InfoSwitchingToFallback HTTP2], slotOn HTTP2 true 0, true) /\
  fallbackConsistent quicWithFallback (slotOn QUIC false 3) /\
  fallbackConsistent quicWithFallback (slotOn HTTP2 true 0).
Proof.
  assert (Hcall : selectNextProtocol [] (slotOn QUIC false 3) quicWithFallback
                    (Some endOfStream)
                  = ([InfoSwitchingToFallback HTTP2], slotOn HTTP2 true 0, true))
    by reflexivity.
  assert (Hbefore : fallbackConsistent quicWithFallback (slotOn QUIC false 3))
    by (unfold fallbackConsistent; simpl; discriminate).
  split; [exact Hcall | split; [exact Hbefore |]].
  exact (proj1 (selectNextProtocol_keeps_slot _ _ _ _ _ _ _ Hcall) Hbefore).
Defined.

(** Once a slot is in fallback the picker never moves it again: it leaves
    the slot as it is, and gives up exactly when the retry ceiling has been
    reached or the cause is QUIC-broken with a fallback reported. *)
Theorem selectNextProtocol_in_fallback {S : Type} `{ProtocolSelector S}
    (connLog : list Event) (pb : protocolFallback) (selector : S)
    (cause : option error) :
  inFallback pb = true ->
  fallbackConsistent selector pb ->
  snd (fst (selectNextProtocol connLog pb selector cause)) = pb /\
  snd (selectNextProtocol connLog pb selector cause)
  = negb (considersFallback pb selector cause).
Proof.
  intros Hin Hconsistent. specialize (Hconsistent Hin).
  unfold selectNextProtocol, considersFallback.
  destruct (Fallback selector) as [fb hasFallback]; simpl in *.
  destruct (retry.ReachedMaxRetries (BackoffHandler pb) ||
            hasFallback && isQuicBroken cause).
  - destruct hasFallback; simpl; [| split; reflexivity].
    destruct (decide (protocol pb = fb)); [split; reflexivity | contradiction].
  - rewrite Hin. simpl. split; reflexivity.
Qed.

Lemma selectNextProtocol_in_fallback_witness :
  inFallback (slotOn HTTP2 true 3) = true /\
  fallbackConsistent quicWithFallback (slotOn HTTP2 true 3) /\
  selectNextProtocol [] (slotOn HTTP2 true 3) quicWithFallback (Some endOfStream)
  = ([], slotOn HTTP2 true 3, false).
Proof.
  assert (Hconsistent : fallbackConsistent quicWithFallback (slotOn HTTP2 true 3))
    by (unfold fallbackConsistent; reflexivity).
  split; [reflexivity | split; [exact Hconsistent |]].
  destruct (selectNextProtocol_in_fallback [] (slotOn HTTP2 true 3) quicWithFallback
              (Some endOfStream) eq_refl Hconsistent) as [Hslot Hok].
  destruct (selectNextProtocol [] (slotOn HTTP2 true 3) quicWithFallback
              (Some endOfStream)) as [[log pb'] ok] eqn:Hcall.
  simpl in Hslot, Hok. rewrite Hslot, Hok.
  injection Hcall as <- _ _. reflexivity.
Defined.

(** After a connect the slot goes back to the selector's protocol.  The
    [Connected] callback resets the backoff but leaves the protocol, also
    the fallback protocol, in place; the next time the picker runs without
    a reason to consider the fallback it continues on the selector's
    [Current()], with [inFallback] false. *)
Theorem Connected_then_selectNextProtocol {S : Type} `{ProtocolSelector S}
    (connLog : list Event) (cf : connectedFuse) (selector : S)
    (cause : option error) :
  considersFallback (backoff (Connected cf)) selector cause = false ->
  protocol (backoff (Connected cf)) = protocol (backoff cf) /\
  let '(_, pb', ok) :=
    selectNextProtocol connLog (backoff (Connected cf)) selector cause in
  ok = true /\
  protocol pb' = Current selector /\
  inFallback pb' = false /\
  retry.Retries (BackoffHandler pb') = 0.
Proof.
  unfold considersFallback, selectNextProtocol. intros Hno.
  split; [reflexivity |].
  destruct (Fallback selector) as [fb hasFallback]; simpl in *.
  rewrite Hno.
  destruct (decide (protocol (backoff cf) <> Current selector)) as [Hne | Heq];
    simpl; repeat split.
  destruct (decide (protocol (backoff cf) = Current selector)); [assumption | contradiction].
Qed.

Lemma Connected_then_selectNextProtocol_witness :
  let cf := {| fuse := None; backoff := slotOn HTTP2 true 2 |} in
  considersFallback (backoff (Connected cf)) quicWithFallback (Some endOfStream) = false /\
  selectNextProtocol [] (backoff (Connected cf)) quicWithFallback (Some endOfStream)
  = ([InfoChangingProtocol QUIC], slotOn QUIC false 0, true) /\
  protocol (backoff (Connected cf)) = HTTP2.
Proof.
  cbv zeta.
  assert (Hno : considersFallback
                  (backoff (Connected {| fuse := None; backoff := slotOn HTTP2 true 2 |}))
                  quicWithFallback (Some endOfStream) = false) by reflexivity.
  split; [exact Hno | split; [reflexivity |]].
  exact (proj1 (Connected_then_selectNextProtocol []
                  {| fuse := None; backoff := slotOn HTTP2 true 2 |}
                  quicWithFallback (Some endOfStream) Hno)).
Defined.

(** The picker only adds to the log, and only lines of its own; it logs the
    guidance on UDP egress exactly when it considers the fallback for a
    QUIC-broken cause; and it never changes the slot's protocol without
    announcing the new protocol: as a switch to the fallback when the slot
    enters fallback, as a change of protocol otherwise. *)
Theorem selectNextProtocol_announces {S : Type} `{ProtocolSelector S}
    (connLog connLog' : list Event) (pb pb' : protocolFallback) (selector : S)
    (cause : option error) (ok : bool) :
  selectNextProtocol connLog pb selector cause = (connLog', pb', ok) ->
  exists lines : list Event,
    connLog' = (connLog ++ lines)%list /\
    (forall ev : Event, In ev lines -> isPickerLine ev = true) /\
    (In WarnUDPEgressBlocked lines <->
     considersFallback pb selector cause = true /\ isQuicBroken cause = true) /\
    (protocol pb' <> protocol pb ->
     if inFallback pb'
     then In (InfoSwitchingToFallback (protocol pb')) lines
     else In (InfoChangingProtocol (protocol pb')) lines).
Proof.
  unfold selectNextProtocol, considersFallback, emit.
  destruct (Fallback selector) as [fb hasFallback]; simpl.
  destruct (retry.ReachedMaxRetries (BackoffHandler pb) ||
            hasFallback && isQuicBroken cause) eqn:Hconsider.
  - destruct (isQuicBroken cause) eqn:Hbroken, hasFallback; simpl;
      try destruct (decide (protocol pb = fb));
      intros [= <- <- <-];
      first
        [ exists []; rewrite app_nil_r;
          split; [reflexivity |];
          split; [intros ev []|];
          split; [split; [intros [] | intros [_ Hb]; discriminate Hb] |];
          intros Hne; now contradiction Hne
        | exists [WarnUDPEgressBlocked];
          split; [reflexivity |];
          split; [intros ev [<- | []]; reflexivity |];
          split; [split; [intros _; now split | intros _; now left] |];
          intros Hne; now contradiction Hne
        | exists [InfoSwitchingToFallback fb];
          split; [reflexivity |];
          split; [intros ev [<- | []]; reflexivity |];
          split; [split; [intros [Hw | []]; discriminate Hw
                         | intros [_ Hb]; discriminate Hb] |];
          intros _; simpl; now left
        | exists [WarnUDPEgressBlocked; InfoSwitchingToFallback fb];
          split; [now rewrite <- app_assoc |];
          split; [intros ev [<- | [<- | []]]; reflexivity |];
          split; [split; [intros _; now split | intros _; now left] |];
          intros _; simpl; right; now left ].
  - destruct (inFallback pb) eqn:Hin; simpl.
    + intros [= <- <- <-]. exists []. rewrite app_nil_r.
      split; [reflexivity |]. split; [intros ev [] |].
      split; [split; [intros [] | intros [Hc _]; discriminate Hc] |].
      intros Hne; now contradiction Hne.
    + destruct (decide (protocol pb <> Current selector)); intros [= <- <- <-].
      * exists [InfoChangingProtocol (Current selector)].
        split; [reflexivity |].
        split; [intros ev [<- | []]; reflexivity |].
        split; [split; [intros [Hw | []]; discriminate Hw
                       | intros [Hc _]; discriminate Hc] |].
        intros _. simpl. rewrite Hin. now left.
      * exists []. rewrite app_nil_r.
        split; [reflexivity |]. split; [intros ev [] |].
        split; [split; [intros [] | intros [Hc _]; discriminate Hc] |].
        intros Hne; now contradiction Hne.
Qed.

Lemma selectNextProtocol_announces_witness :
  selectNextProtocol [SendReconnect 0] (slotOn QUIC false 1) quicWithFallback
    (Some IdleTimeoutError)
  = ([SendReconnect 0; WarnUDPEgressBlocked; InfoSwitchingToFallback HTTP2],
     slotOn HTTP2 true 0, true) /\
  exists lines : list Event,
    [SendReconnect 0; WarnUDPEgressBlocked; InfoSwitchingToFallback HTTP2]
    = ([SendReconnect 0] ++ lines)%list /\
    In (InfoSwitchingToFallback HTTP2) lines.
Proof.
  assert (Hcall : selectNextProtocol [SendReconnect 0] (slotOn QUIC false 1)
                    quicWithFallback (Some IdleTimeoutError)
                  = ([SendReconnect 0; WarnUDPEgressBlocked;
                      InfoSwitchingToFallback HTTP2],
                     slotOn HTTP2 true 0, true)) by reflexivity.
  split; [exact Hcall |].
  destruct (selectNextProtocol_announces _ _ _ _ _ _ _ Hcall)
    as (lines & Hlog & _ & _ & Hannounce).
  exists lines. split; [exact Hlog |].
  apply Hannounce. simpl. discriminate.
Defined.

(** ** serveTunnel and the observer *)

(** Whatever happens while a connection is served, [serveTunnel] reports
    the disconnect of the slot exactly once, as the last thing it does;
    before that it adds nothing to the events but the sleep of a reconnect
    signal. *)
Theorem serveTunnel_disconnects_once {H : Type} (o : Outcome) (stack : string)
    (connIndex : Z) (st : state H) :
  exists slept : list Event,
    events (fst (serveTunnel o stack connIndex st))
    = (events st ++ slept ++ [SendDisconnect connIndex])%list /\
    occurrences isSendDisconnect (events (fst (serveTunnel o stack connIndex st)))
    = S (occurrences isSendDisconnect (events st)) /\
    (slept = [] \/
     exists (Delay : Z) (recoverable : bool),
       result o = returns (Some (ReconnectSignal Delay)) recoverable /\
       slept = [Sleep Delay]).
Proof.
  assert (Hcount : forall (log slept : list Event),
            occurrences isSendDisconnect slept = 0%nat ->
            occurrences isSendDisconnect (log ++ slept ++ [SendDisconnect connIndex])
            = S (occurrences isSendDisconnect log)).
  { intros log slept Hnone. unfold occurrences in *.
    rewrite !List.filter_app, !length_app, Hnone. simpl. lia. }
  unfold serveTunnel, serveConnection.
  destruct (result o) as [[err |] recoverable | r] eqn:Hres; simpl.
  - destruct err as [s | | c m | c | | c p | c | | t | d | c | b]; simpl;
      try (exists []; unfold emit;
           split; [reflexivity
                  | split; [exact (Hcount (events st) [] eq_refl) | now left]]).
    exists [Sleep d]. unfold DelayBeforeReconnect, emit.
    rewrite <- app_assoc.
    split; [reflexivity |].
    split; [exact (Hcount (events st) [Sleep d] eq_refl) |].
    right. exists d, recoverable. now split.
  - exists []. unfold emit.
    split; [reflexivity
           | split; [exact (Hcount (events st) [] eq_refl) | now left]].
  - exists []. unfold emit.
    split; [reflexivity
           | split; [exact (Hcount (events st) [] eq_refl) | now left]].
Qed.

(** ** The shape of one Serve call *)

Section ServeShape.
Context {H S : Type} `{EdgeAddrHandler H} `{ProtocolSelector S}.

(** The state [serveTunnel] is run on: the slot with a fresh fuse. *)
Lemma Serve_attempt_shape (e : Inputs S) (connIndex : Z) (st : state H) :
  let st0 := mkState (edgeAddrHandler st) (slotFallback st) newBooleanFuse (events st) in
  let T := serveTunnel (served e) (stack e) connIndex st0 in
  let C := handlerShouldGetNewAddress (edgeAddrHandler st) connIndex (fst (snd T)) in
  let should :=
    if fst (snd C)
    then match snd (snd C) with
         | Some (ConnectivityError reached) => reached
         | _ => snd (snd T)
         end
    else snd (snd T) in
  let st1 := mkState (fst C) (slotFallback (fst T)) (slotFuse (fst T)) (events (fst T)) in
  Serve_attempt e connIndex st =
  match GetAddr e with
  | Some err => Returned st0 (Some err)
  | None =>
      match (if fst (snd C) then GetDifferentAddr e else None) with
      | Some err => Returned st1 (Some err)
      | None =>
          if retry.GetMaxBackoffDuration (BackoffHandler (slotFallback (fst T)))
          then Waiting (mkState (fst C) (slotFallback (fst T)) (slotFuse (fst T))
                                (emit (SendReconnect connIndex) (events (fst T))))
                       (fst (snd T)) should
          else Returned st1 (fst (snd T))
      end
  end.
Proof.
  cbv zeta. unfold Serve_attempt.
  destruct (GetAddr e); [reflexivity |].
  match goal with
  | |- context [serveTunnel ?o ?s ?i ?x] =>
      pose proof (serveTunnel_state o s i x) as (Hhandler & _);
      destruct (serveTunnel o s i x) as [st1 [err should]]
  end.
  simpl in *. rewrite Hhandler.
  destruct (handlerShouldGetNewAddress (edgeAddrHandler st) connIndex err)
    as [handler [rotate cErr]]; simpl.
  destruct rotate; [destruct (GetDifferentAddr e) |]; simpl; try reflexivity;
    destruct (retry.GetMaxBackoffDuration (BackoffHandler (slotFallback st1)));
    simpl; try reflexivity;
    destruct cErr as [[] |]; reflexivity.
Qed.

(** What the wait does to the state, case by case: the picker runs in the
    timer case only, and only if the attempt asked for it and the tracker
    has seen no connection with the selected protocol. *)
Lemma Serve_select_shape (e : Inputs S) (st : state H) (err : option error)
    (should : bool) (arm : WaitArm) :
  let counted :=
    mkProtocolFallback (retry.BackoffTimer (BackoffHandler (slotFallback st)))
                       (protocol (slotFallback st)) (inFallback (slotFallback st)) in
  let picks :=
    match arm with
    | backoffTimer => should && negb (HasConnectedWith e (Current (selector e)))
    | _ => false
    end in
  edgeAddrHandler (fst (Serve_select e st err should arm)) = edgeAddrHandler st /\
  slotFuse (fst (Serve_select e st err should arm)) = slotFuse st /\
  (picks = false ->
   slotFallback (fst (Serve_select e st err should arm)) = counted /\
   events (fst (Serve_select e st err should arm)) = events st) /\
  (picks = true ->
   slotFallback (fst (Serve_select e st err should arm))
   = snd (fst (selectNextProtocol (events st) counted (selector e) err)) /\
   events (fst (Serve_select e st err should arm))
   = fst (fst (selectNextProtocol (events st) counted (selector e) err))) /\
  snd (Serve_select e st err should arm)
  = match arm with
    | ctx_Done => Some (ctxErr e)
    | gracefulShutdownC => None
    | backoffTimer => err
    end.
Proof.
  cbv zeta. unfold Serve_select, withFallback.
  destruct arm; simpl; try (repeat split; discriminate).
  destruct should; simpl; [| repeat split; discriminate].
  destruct (HasConnectedWith e (Current (selector e))); simpl;
    [repeat split; discriminate |].
  destruct (selectNextProtocol _ _ (selector e) err) as [[log pf] ok].
  destruct ok; simpl; repeat split; discriminate.
Qed.

End ServeShape.

(** Splits the equation of [Serve_attempt_shape] into the ways the attempt
    can go. *)
Ltac break_attempt Hatt :=
  repeat match type of Hatt with
         | context [GetAddr ?e] => destruct (GetAddr e)
         | context [if fst (snd ?c) then GetDifferentAddr ?e else None] =>
             destruct (fst (snd c)); [destruct (GetDifferentAddr e) |]
         | context [if retry.GetMaxBackoffDuration ?b then _ else _] =>
             destruct (retry.GetMaxBackoffDuration b)
         end;
  try discriminate Hatt.

Section ServeResults.
Context {H S : Type} `{EdgeAddrHandler H} `{ProtocolSelector S}.

Lemma Serve_result_cases (e : Inputs S) (connIndex : Z) (st : state H)
    (r : state H * option error) :
  In r (Serve e connIndex st) ->
  (exists st1 err,
     Serve_attempt e connIndex st = Returned st1 err /\
     r = Serve_return (st1, err)) \/
  (exists st1 err should arm,
     Serve_attempt e connIndex st = Waiting st1 err should /\
     fires (signals e) arm = true /\
     r = Serve_return (Serve_select e st1 err should arm)).
Proof.
  unfold Serve. intros Hin.
  destruct (Serve_attempt e connIndex st) as [st1 err | st1 err should].
  - destruct Hin as [<- | []]. left. now exists st1, err.
  - apply in_map_iff in Hin as (arm & <- & Hready).
    apply selectReady_fires in Hready.
    right. now exists st1, err, should, arm.
Qed.

Lemma Serve_return_state (st1 : state H) (err : option error) :
  edgeAddrHandler (fst (Serve_return (st1, err))) = edgeAddrHandler st1 /\
  slotFallback (fst (Serve_return (st1, err))) = slotFallback st1 /\
  slotFuse (fst (Serve_return (st1, err))) = Fuse false (slotFuse st1) /\
  events (fst (Serve_return (st1, err))) = events st1 /\
  snd (Serve_return (st1, err)) = err.
Proof. repeat split. Qed.

(** [Serve] never leaves the connected fuse unset: when it returns, the
    fuse reads true if the control stream reported the connection during
    the call, and has been set to false otherwise, so that whoever awaits
    the fuse is released. *)
Theorem Serve_settles_fuse (e : Inputs S) (connIndex : Z) (st : state H)
    (r : state H * option error) :
  In r (Serve e connIndex st) ->
  slotFuse (fst r)
  = Some (match GetAddr e with
          | None => connects (served e)
          | Some _ => false
          end).
Proof.
  intros Hin.
  pose proof (Serve_attempt_shape e connIndex st) as Hshape. cbv zeta in Hshape.
  match type of Hshape with
  | context [serveTunnel ?o ?s ?i ?x] =>
      pose proof (serveTunnel_state o s i x) as (_ & _ & Hfuse)
  end.
  simpl in Hfuse.
  assert (Hset : forall b : booleanFuse,
            b = (if connects (served e) then Fuse true newBooleanFuse else newBooleanFuse) ->
            Fuse false b = Some (connects (served e))).
  { intros b ->. now destruct (connects (served e)). }
  apply Serve_result_cases in Hin
    as [(st1 & err & Hatt & ->) | (st1 & err & should & arm & Hatt & _ & ->)];
    rewrite Hshape in Hatt.
  - destruct (Serve_return_state st1 err) as (_ & _ & -> & _).
    break_attempt Hatt; injection Hatt as <- _;
      first [reflexivity | now apply Hset].
  - destruct (Serve_select e st1 err should arm) as [st2 err2] eqn:Hsel.
    destruct (Serve_return_state st2 err2) as (_ & _ & -> & _).
    pose proof (Serve_select_shape e st1 err should arm) as Hs. cbv zeta in Hs.
    rewrite Hsel in Hs. destruct Hs as (_ & Hf & _). simpl in Hf. rewrite Hf.
    break_attempt Hatt; injection Hatt as <- _ _; now apply Hset.
Qed.

(** [Serve] keeps the slot invariant: if a slot in fallback is on the
    selector's fallback protocol when the call starts, the same holds
    whenever and however the call returns. *)
Theorem Serve_keeps_fallback_consistent (e : Inputs S) (connIndex : Z)
    (st : state H) (r : state H * option error) :
  fallbackConsistent (selector e) (slotFallback st) ->
  In r (Serve e connIndex st) ->
  fallbackConsistent (selector e) (slotFallback (fst r)).
Proof.
  intros Hinv Hin.
  pose proof (Serve_attempt_fallback e connIndex st) as Hpf. cbv zeta in Hpf.
  assert (Hafter : forall pf : protocolFallback,
            (pf = slotFallback st \/
             (connects (served e) = true /\ pf = reset (slotFallback st))) ->
            fallbackConsistent (selector e) pf).
  { intros pf [-> | [_ ->]]; [exact Hinv | unfold fallbackConsistent; discriminate]. }
  apply Serve_result_cases in Hin
    as [(st1 & err & Hatt & ->) | (st1 & err & should & arm & Hatt & _ & ->)];
    rewrite Hatt in Hpf.
  - simpl. now apply Hafter.
  - destruct (Serve_select e st1 err should arm) as [st2 err2] eqn:Hsel.
    pose proof (Serve_select_shape e st1 err should arm) as Hs. cbv zeta in Hs.
    rewrite Hsel in Hs. destruct Hs as (_ & _ & Hquiet & Hpicks & _).
    simpl in *.
    specialize (Hafter _ Hpf).
    assert (Hcounted : fallbackConsistent (selector e)
              (mkProtocolFallback (retry.BackoffTimer (BackoffHandler (slotFallback st1)))
                                  (protocol (slotFallback st1))
                                  (inFallback (slotFallback st1))))
      by exact Hafter.
    destruct (match arm with
              | backoffTimer => should && negb (HasConnectedWith e (Current (selector e)))
              | _ => false
              end).
    + destruct (Hpicks eq_refl) as [-> _].
      destruct (selectNextProtocol (events st1) _ (selector e) err)
        as [[log pf] ok] eqn:Hpick.
      exact (selectNextProtocol_consistent _ _ _ _ _ _ _ Hpick Hcounted).
    + destruct (Hquiet eq_refl) as [-> _]. exact Hcounted.
Qed.

End ServeResults.

Lemma Serve_settles_fuse_witness :
  In (mkState (setRetries (NewIPAddrFallback 3) 0 1) (slotOn QUIC false 1)
              (Some true) [SendDisconnect 0; SendReconnect 0],
      Some endOfStream)
     (Serve (attempt (connectsThenFails endOfStream) connectedWithQUIC timerOnly) 0
            (slotState (slotOn QUIC false 2) (setRetries (NewIPAddrFallback 3) 0 1))) /\
  Some true = Some (connects (connectsThenFails endOfStream)).
Proof.
  assert (Hin : In (mkState (setRetries (NewIPAddrFallback 3) 0 1) (slotOn QUIC false 1)
                            (Some true) [SendDisconnect 0; SendReconnect 0],
                    Some endOfStream)
                   (Serve (attempt (connectsThenFails endOfStream) connectedWithQUIC
                                   timerOnly) 0
                          (slotState (slotOn QUIC false 2)
                                     (setRetries (NewIPAddrFallback 3) 0 1))))
    by (left; reflexivity).
  split; [exact Hin |].
  exact (Serve_settles_fuse
           (attempt (connectsThenFails endOfStream) connectedWithQUIC timerOnly)
           0 _ _ Hin).
Defined.

Lemma Serve_keeps_fallback_consistent_witness :
  fallbackConsistent quicWithFallback (slotOn QUIC false 2) /\
  In (mkState (NewIPAddrFallback 3) (slotOn HTTP2 true 0) (Some false)
              [SendDisconnect 1; SendReconnect 1; WarnUDPEgressBlocked;
               InfoSwitchingToFallback HTTP2],
      Some IdleTimeoutError)
     (Serve (attempt (fails IdleTimeoutError true) nobodyConnected timerOnly) 1
            (slotState (slotOn QUIC false 2) (NewIPAddrFallback 3))) /\
  fallbackConsistent quicWithFallback (slotOn HTTP2 true 0).
Proof.
  assert (Hinv : fallbackConsistent quicWithFallback (slotOn QUIC false 2))
    by (unfold fallbackConsistent; simpl; discriminate).
  assert (Hin : In (mkState (NewIPAddrFallback 3) (slotOn HTTP2 true 0) (Some false)
                            [SendDisconnect 1; SendReconnect 1; WarnUDPEgressBlocked;
                             InfoSwitchingToFallback HTTP2],
                    Some IdleTimeoutError)
                   (Serve (attempt (fails IdleTimeoutError true) nobodyConnected timerOnly)
                          1 (slotState (slotOn QUIC false 2) (NewIPAddrFallback 3))))
    by (left; reflexivity).
  split; [exact Hinv | split; [exact Hin |]].
  exact (Serve_keeps_fallback_consistent
           (attempt (fails IdleTimeoutError true) nobodyConnected timerOnly)
           1 (slotState (slotOn QUIC false 2) (NewIPAddrFallback 3)) _ Hinv Hin).
Defined.

(** ** Serve and the error classifier *)

Lemma ShouldGetNewAddress_frame (f : ipAddrFallback) (connIndex : Z)
    (err : option error) :
  maxRetries (fst (ShouldGetNewAddress f connIndex err)) = maxRetries f /\
  forall slot : Z, slot <> connIndex ->
    retriesByConnIndex (fst (ShouldGetNewAddress f connIndex err)) !! slot
    = retriesByConnIndex f !! slot.
Proof.
  split; [| intros slot Hne];
    destruct err as [[] |]; simpl; try reflexivity;
    destruct (_ <=? _); simpl; try reflexivity;
    (rewrite lookup_insert_ne; [reflexivity | congruence]).
Qed.

Lemma ShouldGetNewAddress_asks (f : ipAddrFallback) (connIndex : Z)
    (err : option error) :
  fst (snd (ShouldGetNewAddress f connIndex err)) = asksNewAddress err /\
  (isDialFailure err = false -> ShouldGetNewAddress f connIndex err
                                = (f, (asksNewAddress err, None))).
Proof.
  destruct err as [[] |]; simpl; try (split; [reflexivity | intros; reflexivity]);
    destruct (_ <=? _); split; try reflexivity; discriminate.
Qed.

Section ServeClassifier.
Context {S : Type} `{ProtocolSelector S}.

(** The classifier a [Serve] call returns is the one it was given, or that
    one after classifying the error of the attempt for the slot. *)
Lemma Serve_classifier (e : Inputs S) (connIndex : Z) (st : state ipAddrFallback)
    (r : state ipAddrFallback * option error) :
  In r (Serve e connIndex st) ->
  edgeAddrHandler (fst r) = edgeAddrHandler st \/
  exists err : option error,
    edgeAddrHandler (fst r) = fst (ShouldGetNewAddress (edgeAddrHandler st) connIndex err).
Proof.
  intros Hin.
  pose proof (Serve_attempt_shape e connIndex st) as Hshape. cbv zeta in Hshape.
  apply Serve_result_cases in Hin
    as [(st1 & err & Hatt & ->) | (st1 & err & should & arm & Hatt & _ & ->)];
    rewrite Hshape in Hatt.
  - simpl. break_attempt Hatt; injection Hatt as <- _;
      first [now left | right; eexists; reflexivity].
  - destruct (Serve_select e st1 err should arm) as [st2 err2] eqn:Hsel.
    pose proof (Serve_select_shape e st1 err should arm) as Hs. cbv zeta in Hs.
    rewrite Hsel in Hs. destruct Hs as (Hh & _). simpl in *. rewrite Hh.
    break_attempt Hatt; injection Hatt as <- _ _;
      right; eexists; reflexivity.
Qed.

(** The slots do not disturb each other through the shared classifier: a
    [Serve] call for one slot leaves the counter of every other slot and
    [maxRetries] as they were, and keeps the counters within a [uint8]. *)
Theorem Serve_slot_isolation (e : Inputs S) (connIndex slot : Z)
    (st : state ipAddrFallback) (r : state ipAddrFallback * option error) :
  slot <> connIndex ->
  In r (Serve e connIndex st) ->
  retriesByConnIndex (edgeAddrHandler (fst r)) !! slot
  = retriesByConnIndex (edgeAddrHandler st) !! slot /\
  maxRetries (edgeAddrHandler (fst r)) = maxRetries (edgeAddrHandler st) /\
  (countersInRange (edgeAddrHandler st) -> countersInRange (edgeAddrHandler (fst r))).
Proof.
  intros Hne Hin.
  destruct (Serve_classifier e connIndex st r Hin) as [-> | [err ->]].
  - split; [reflexivity | split; [reflexivity | intros Hrange; exact Hrange]].
  - destruct (ShouldGetNewAddress_frame (edgeAddrHandler st) connIndex err)
      as [Hmax Hother].
    split; [now apply Hother | split; [exact Hmax |]].
    apply ShouldGetNewAddress_range.
Qed.

End ServeClassifier.

Lemma Serve_slot_isolation_witness :
  (1 : Z) <> 0 /\
  In (mkState (setRetries (setRetries (NewIPAddrFallback 3) 1 2) 0 1)
              (slotOn QUIC false 2) (Some false) [SendDisconnect 0; SendReconnect 0],
      Some quicDialFailed)
     (Serve (attempt (fails quicDialFailed true) nobodyConnected timerOnly) 0
            (slotState (slotOn QUIC false 1) (setRetries (NewIPAddrFallback 3) 1 2))) /\
  retriesByConnIndex (setRetries (setRetries (NewIPAddrFallback 3) 1 2) 0 1) !! 1
  = retriesByConnIndex (setRetries (NewIPAddrFallback 3) 1 2) !! 1.
Proof.
  assert (Hne : (1 : Z) <> 0) by discriminate.
  assert (Hin : In (mkState (setRetries (setRetries (NewIPAddrFallback 3) 1 2) 0 1)
                            (slotOn QUIC false 2) (Some false)
                            [SendDisconnect 0; SendReconnect 0],
                    Some quicDialFailed)
                   (Serve (attempt (fails quicDialFailed true) nobodyConnected timerOnly) 0
                          (slotState (slotOn QUIC false 1)
                                     (setRetries (NewIPAddrFallback 3) 1 2))))
    by (left; reflexivity).
  split; [exact Hne | split; [exact Hin |]].
  exact (proj1 (Serve_slot_isolation
                  (attempt (fails quicDialFailed true) nobodyConnected timerOnly) 0 1
                  (slotState (slotOn QUIC false 1) (setRetries (NewIPAddrFallback 3) 1 2))
                  _ Hne Hin)).
Defined.

(** ** When Serve runs the protocol picker *)

Lemma serveTunnel_no_picker_lines {H : Type} (o : Outcome) (stack : string)
    (connIndex : Z) (st : state H) :
  occurrences isPickerLine (events (fst (serveTunnel o stack connIndex st)))
  = occurrences isPickerLine (events st) /\
  occurrences isPickerLine
    (emit (SendReconnect connIndex) (events (fst (serveTunnel o stack connIndex st))))
  = occurrences isPickerLine (events st).
Proof.
  assert (Hquiet : forall (log extra : list Event),
            occurrences isPickerLine extra = 0%nat ->
            occurrences isPickerLine (log ++ extra) = occurrences isPickerLine log).
  { intros log extra Hnone. unfold occurrences in *.
    rewrite List.filter_app, length_app, Hnone. lia. }
  unfold serveTunnel, serveConnection, DelayBeforeReconnect, emit.
  destruct (result o) as [[err |] recoverable | r]; simpl;
    try destruct err; simpl;
    rewrite <- ?app_assoc; split; apply Hquiet; reflexivity.
Qed.

Lemma serveTunnel_result_state_free {H : Type} (o : Outcome) (stack : string)
    (connIndex : Z) (st st' : state H) :
  snd (serveTunnel o stack connIndex st) = snd (serveTunnel o stack connIndex st').
Proof.
  unfold serveTunnel, serveConnection.
  destruct (result o) as [[err |] recoverable | r]; simpl;
    try destruct err; reflexivity.
Qed.

Section ServePicker.
Context {H S : Type} `{EdgeAddrHandler H} `{ProtocolSelector S}.

(** When the attempt does not ask for the protocol picker, the call leaves
    the protocol alone and returns the classifier as the attempt left it. *)
Lemma Serve_without_picker (e : Inputs S) (connIndex : Z) (st : state H)
    (r : state H * option error) :
  GetAddr e = None ->
  (let T := serveTunnel (served e) (stack e) connIndex st in
   let C := handlerShouldGetNewAddress (edgeAddrHandler st) connIndex (fst (snd T)) in
   (if fst (snd C)
    then match snd (snd C) with
         | Some (ConnectivityError reached) => reached
         | _ => snd (snd T)
         end
    else snd (snd T)) = false) ->
  In r (Serve e connIndex st) ->
  leavesProtocolAlone st r /\
  (connects (served e) = false ->
   inFallback (slotFallback (fst r)) = inFallback (slotFallback st)) /\
  edgeAddrHandler (fst r)
  = fst (handlerShouldGetNewAddress (edgeAddrHandler st) connIndex
           (fst (snd (serveTunnel (served e) (stack e) connIndex st)))).
Proof.
  intros Hget Hquiet Hin. cbv zeta in Hquiet.
  pose proof (Serve_attempt_shape e connIndex st) as Hshape. cbv zeta in Hshape.
  set (st0 := mkState (edgeAddrHandler st) (slotFallback st) newBooleanFuse (events st))
    in *.
  rewrite (serveTunnel_result_state_free _ _ _ st st0) in Hquiet |- *.
  destruct (serveTunnel_state (served e) (stack e) connIndex st0) as (_ & Hpf & _).
  destruct (serveTunnel_no_picker_lines (served e) (stack e) connIndex st0)
    as [Hlines Hlines'].
  simpl in Hpf, Hlines, Hlines'.
  assert (Halone : forall (pf : protocolFallback) (log : list Event),
            protocol pf = protocol (slotFallback (fst (serveTunnel (served e) (stack e)
                                                         connIndex st0))) ->
            inFallback pf = inFallback (slotFallback (fst (serveTunnel (served e) (stack e)
                                                             connIndex st0))) ->
            occurrences isPickerLine log = occurrences isPickerLine (events st) ->
            (protocol pf = protocol (slotFallback st) /\
             (inFallback pf = true -> inFallback (slotFallback st) = true) /\
             occurrences isPickerLine log = occurrences isPickerLine (events st)) /\
            (connects (served e) = false -> inFallback pf = inFallback (slotFallback st))).
  { intros pf log Hp Hi Hl. rewrite Hp, Hi, Hpf.
    destruct (connects (served e)); simpl;
      (split; [split; [reflexivity | split; [| exact Hl]] |]);
      try discriminate; auto. }
  unfold leavesProtocolAlone.
  apply Serve_result_cases in Hin
    as [(st1 & err & Hatt & ->) | (st1 & err & should & arm & Hatt & _ & ->)];
    rewrite Hshape, Hget in Hatt.
  - break_attempt Hatt; injection Hatt as <- _; simpl;
      (destruct (Halone _ _ eq_refl eq_refl Hlines) as [Ha Hb];
       split; [exact Ha | split; [exact Hb | reflexivity]]).
  - destruct (Serve_select e st1 err should arm) as [st2 err2] eqn:Hsel.
    pose proof (Serve_select_shape e st1 err should arm) as Hs. cbv zeta in Hs.
    rewrite Hsel in Hs. destruct Hs as (Hh & _ & Hnopick & _ & _).
    simpl in *.
    break_attempt Hatt; injection Hatt as <- _ <-;
      rewrite Hquiet in Hnopick;
      (assert (Hno : match arm with
                     | backoffTimer => false && negb (HasConnectedWith e (Current (selector e)))
                     | _ => false
                     end = false) by (destruct arm; reflexivity));
      destruct (Hnopick Hno) as [Hpf2 Hev2]; simpl in Hpf2, Hev2, Hh;
      rewrite Hpf2, Hev2, Hh;
      (destruct (Halone _ _ eq_refl eq_refl Hlines') as [Ha Hb];
       split; [exact Ha | split; [exact Hb | reflexivity]]).
Qed.

End ServePicker.

Section ServePickerGate.
Context {S : Type} `{ProtocolSelector S}.

(** A dial failure below the rotation ceiling only rotates the address.
    When serving ends with a [DialError] or an [EdgeQuicDialError] and the
    slot's counter has not reached [maxRetries], [Serve] counts the failure
    and leaves the protocol alone, also when the backoff is at its retry
    ceiling and no slot has connected: the protocol picker is not run. *)
Theorem Serve_dial_failure_below_ceiling (e : Inputs S) (connIndex : Z)
    (st : state ipAddrFallback) (err : error) (recoverable : bool)
    (r : state ipAddrFallback * option error) :
  GetAddr e = None ->
  result (served e) = returns (Some err) recoverable ->
  isDialFailure (Some err) = true ->
  retriesOf (edgeAddrHandler st) connIndex < maxRetries (edgeAddrHandler st) ->
  In r (Serve e connIndex st) ->
  leavesProtocolAlone st r /\
  retriesOf (edgeAddrHandler (fst r)) connIndex
  = incr8 (retriesOf (edgeAddrHandler st) connIndex).
Proof.
  intros Hget Hres Hdial Hbelow Hin.
  assert (HT : exists retryable,
            snd (serveTunnel (served e) (stack e) connIndex st) = (Some err, retryable)).
  { unfold serveTunnel, serveConnection. rewrite Hres.
    destruct err; simpl in Hdial; try discriminate; simpl; eexists; reflexivity. }
  destruct HT as [retryable HT].
  assert (HC : handlerShouldGetNewAddress (edgeAddrHandler st) connIndex (Some err)
               = (setRetries (edgeAddrHandler st) connIndex
                             (incr8 (retriesOf (edgeAddrHandler st) connIndex)),
                  (true, Some (ConnectivityError false)))).
  { change (ShouldGetNewAddress (edgeAddrHandler st) connIndex (Some err)
            = (setRetries (edgeAddrHandler st) connIndex
                          (incr8 (retriesOf (edgeAddrHandler st) connIndex)),
               (true, Some (ConnectivityError false)))).
    destruct err; simpl in Hdial; try discriminate; simpl;
      destruct (Z.leb_spec (maxRetries (edgeAddrHandler st))
                           (retriesOf (edgeAddrHandler st) connIndex));
      try lia; reflexivity. }
  destruct (Serve_without_picker e connIndex st r Hget) as (Halone & _ & Hhandler).
  - cbv zeta. rewrite HT. cbn [fst snd]. rewrite HC. reflexivity.
  - exact Hin.
  - split; [exact Halone |].
    rewrite Hhandler, HT. cbn [fst snd]. rewrite HC. cbn [fst].
    apply retriesOf_setRetries.
Qed.

(** Errors that end the slot's use of the connection leave both the
    protocol and the classifier alone.  When serving ends without an error,
    or with a duplicate registration, [context.Canceled] or an
    [unrecoverableError], [Serve] does not run the protocol picker and
    returns the classifier with every counter as it was. *)
Theorem Serve_terminal_errors (e : Inputs S) (connIndex : Z)
    (st : state ipAddrFallback) (err : option error) (recoverable : bool)
    (r : state ipAddrFallback * option error) :
  GetAddr e = None ->
  result (served e) = returns err recoverable ->
  match err with
  | None => True
  | Some err => isTerminal err = true
  end ->
  In r (Serve e connIndex st) ->
  leavesProtocolAlone st r /\
  edgeAddrHandler (fst r) = edgeAddrHandler st.
Proof.
  intros Hget Hres Hterminal Hin.
  assert (HT : snd (serveTunnel (served e) (stack e) connIndex st) = (err, false)).
  { unfold serveTunnel, serveConnection. rewrite Hres.
    destruct err as [err |]; [| reflexivity].
    destruct err; simpl in Hterminal; try discriminate; reflexivity. }
  assert (HC : exists rotate,
            handlerShouldGetNewAddress (edgeAddrHandler st) connIndex err
            = (edgeAddrHandler st, (rotate, None))).
  { destruct err as [err |]; [| eexists; reflexivity].
    destruct err; simpl in Hterminal; try discriminate; eexists; reflexivity. }
  destruct HC as [rotate HC].
  destruct (Serve_without_picker e connIndex st r Hget) as (Halone & _ & Hhandler).
  - cbv zeta. rewrite HT. cbn [fst snd]. rewrite HC. cbn [fst snd].
    now destruct rotate.
  - exact Hin.
  - split; [exact Halone |].
    rewrite Hhandler, HT. cbn [fst snd]. rewrite HC. reflexivity.
Qed.

(** The address is rotated only for the errors the classifier names.  When
    the error [serveTunnel] returns is neither a duplicate registration nor
    a QUIC idle timeout nor a dial failure, the pool is not asked for a
    different address: what [Serve] does is the same whatever the pool
    would have answered, and the classifier is returned unchanged. *)
Theorem Serve_rotates_only_when_classified (e : Inputs S) (connIndex : Z)
    (st : state ipAddrFallback) (answer : option error) :
  asksNewAddress (fst (snd (serveTunnel (served e) (stack e) connIndex st))) = false ->
  Serve (withGetDifferentAddr e answer) connIndex st = Serve e connIndex st /\
  forall r : state ipAddrFallback * option error,
    In r (Serve e connIndex st) ->
    edgeAddrHandler (fst r) = edgeAddrHandler st.
Proof.
  intros Hno.
  set (st0 := mkState (edgeAddrHandler st) (slotFallback st) newBooleanFuse (events st)).
  rewrite (serveTunnel_result_state_free _ _ _ st st0) in Hno.
  assert (Hdial : isDialFailure (fst (snd (serveTunnel (served e) (stack e) connIndex st0)))
                  = false).
  { destruct (fst (snd (serveTunnel (served e) (stack e) connIndex st0)))
      as [[] |]; simpl in Hno |- *; congruence. }
  destruct (ShouldGetNewAddress_asks (edgeAddrHandler st) connIndex
              (fst (snd (serveTunnel (served e) (stack e) connIndex st0))))
    as [_ Hsame].
  specialize (Hsame Hdial). rewrite Hno in Hsame.
  assert (Hatt : forall e' : Inputs S,
            GetAddr e' = GetAddr e -> served e' = served e -> stack e' = stack e ->
            Serve_attempt e' connIndex st =
            match GetAddr e with
            | Some err => Returned st0 (Some err)
            | None =>
                let T := serveTunnel (served e) (stack e) connIndex st0 in
                if retry.GetMaxBackoffDuration (BackoffHandler (slotFallback (fst T)))
                then Waiting (mkState (edgeAddrHandler st) (slotFallback (fst T))
                                      (slotFuse (fst T))
                                      (emit (SendReconnect connIndex) (events (fst T))))
                             (fst (snd T)) (snd (snd T))
                else Returned (mkState (edgeAddrHandler st) (slotFallback (fst T))
                                       (slotFuse (fst T)) (events (fst T)))
                              (fst (snd T))
            end).
  { intros e' Hg Hs Hk.
    pose proof (Serve_attempt_shape e' connIndex st) as Hshape. cbv zeta in Hshape.
    rewrite Hshape, Hg, Hs, Hk. fold st0.
    change (handlerShouldGetNewAddress (edgeAddrHandler st) connIndex
              (fst (snd (serveTunnel (served e) (stack e) connIndex st0))))
      with (ShouldGetNewAddress (edgeAddrHandler st) connIndex
              (fst (snd (serveTunnel (served e) (stack e) connIndex st0)))).
    rewrite Hsame. reflexivity. }
  split.
  - unfold Serve.
    rewrite (Hatt e eq_refl eq_refl eq_refl),
            (Hatt (withGetDifferentAddr e answer) eq_refl eq_refl eq_refl).
    destruct (GetAddr e); [reflexivity |]. cbv zeta.
    destruct (retry.GetMaxBackoffDuration _); reflexivity.
  - intros r Hin.
    apply Serve_result_cases in Hin
      as [(st1 & err & Hret & ->) | (st1 & err & should & arm & Hwait & _ & ->)].
    + rewrite (Hatt e eq_refl eq_refl eq_refl) in Hret. cbv zeta in Hret.
      destruct (GetAddr e); [injection Hret as <- _; reflexivity |].
      destruct (retry.GetMaxBackoffDuration _); [discriminate |].
      injection Hret as <- _. reflexivity.
    + rewrite (Hatt e eq_refl eq_refl eq_refl) in Hwait. cbv zeta in Hwait.
      destruct (GetAddr e); [discriminate |].
      destruct (retry.GetMaxBackoffDuration _); [| discriminate].
      injection Hwait as <- _ _.
      match goal with
      | |- context [Serve_select e ?x err should arm] =>
          pose proof (Serve_select_shape e x err should arm) as Hs;
          cbv zeta in Hs; destruct Hs as (Hh & _);
          destruct (Serve_select e x err should arm) as [st2 err2]
      end.
      exact Hh.
Qed.

(** When the pool has no address for the slot, [Serve] returns the pool's
    error at once: nothing is served, classified, waited for or reported.
    When the classifier asks for a new address and the pool cannot give a
    different one, [Serve] returns the pool's error instead of the error of
    the attempt, without waiting and without announcing a reconnect; the
    disconnect has been reported and the failure has been classified. *)
Theorem Serve_pool_errors (e : Inputs S) (connIndex : Z)
    (st : state ipAddrFallback) (poolErr : error) :
  (GetAddr e = Some poolErr ->
   Serve e connIndex st
   = [(mkState (edgeAddrHandler st) (slotFallback st) (Some false) (events st),
       Some poolErr)]) /\
  (GetAddr e = None ->
   GetDifferentAddr e = Some poolErr ->
   asksNewAddress (fst (snd (serveTunnel (served e) (stack e) connIndex st))) = true ->
   exists st' : state ipAddrFallback,
     Serve e connIndex st = [(st', Some poolErr)] /\
     edgeAddrHandler st'
     = fst (ShouldGetNewAddress (edgeAddrHandler st) connIndex
              (fst (snd (serveTunnel (served e) (stack e) connIndex st)))) /\
     occurrences isSendDisconnect (events st')
     = Datatypes.S (occurrences isSendDisconnect (events st)) /\
     ~ In (SendReconnect connIndex)
          (skipn (length (events st)) (events st'))).
Proof.
  split.
  - intros Hget. unfold Serve, Serve_attempt. rewrite Hget. reflexivity.
  - intros Hget Hdiff Hasks.
    set (st0 := mkState (edgeAddrHandler st) (slotFallback st) newBooleanFuse (events st)).
    rewrite (serveTunnel_result_state_free _ _ _ st st0) in Hasks |- *.
    pose proof (Serve_attempt_shape e connIndex st) as Hshape. cbv zeta in Hshape.
    fold st0 in Hshape.
    destruct (ShouldGetNewAddress_asks (edgeAddrHandler st) connIndex
                (fst (snd (serveTunnel (served e) (stack e) connIndex st0))))
      as [Hrot _].
    rewrite Hasks in Hrot.
    change (handlerShouldGetNewAddress (edgeAddrHandler st) connIndex
              (fst (snd (serveTunnel (served e) (stack e) connIndex st0))))
      with (ShouldGetNewAddress (edgeAddrHandler st) connIndex
              (fst (snd (serveTunnel (served e) (stack e) connIndex st0))))
      in Hshape.
    rewrite Hget, Hrot, Hdiff in Hshape.
    eexists. unfold Serve. rewrite Hshape. split; [reflexivity |].
    simpl. split; [reflexivity |].
    assert (Hev : exists slept,
              events (fst (serveTunnel (served e) (stack e) connIndex st0))
              = (events st ++ slept ++ [SendDisconnect connIndex])%list /\
              occurrences isSendDisconnect slept = 0%nat /\
              ~ In (SendReconnect connIndex) slept).
    { unfold serveTunnel, serveConnection, DelayBeforeReconnect, emit.
      destruct (result (served e)) as [[err |] recoverable | pv]; simpl;
        try destruct err; simpl; rewrite <- ?app_assoc;
        first
          [ exists (@nil Event);
            split; [reflexivity | split; [reflexivity | intros []]]
          | match goal with
            | |- context [Sleep ?d] => exists [Sleep d]
            end;
            split; [reflexivity | split; [reflexivity |]];
            intros [Hf | []]; discriminate Hf ]. }
    destruct Hev as (slept & -> & Hnone & Hnore).
    split.
    + unfold occurrences in *.
      rewrite !List.filter_app, !length_app, Hnone. simpl. lia.
    + rewrite skipn_app, Nat.sub_diag, skipn_all. simpl.
      intros Hf. apply in_app_or in Hf as [Hf | [Hf | []]];
        [now apply Hnore | discriminate Hf].
Qed.

End ServePickerGate.

Lemma Serve_dial_failure_below_ceiling_witness :
  let e := attempt (fails quicDialFailed true) nobodyConnected timerOnly in
  let st := slotState (slotOn QUIC false 2) (NewIPAddrFallback 3) in
  let r := (mkState (setRetries (NewIPAddrFallback 3) 0 1) (slotOn QUIC false 3)
                    (Some false) [SendDisconnect 0; SendReconnect 0],
            Some quicDialFailed) in
  GetAddr e = None /\
  result (served e) = returns (Some quicDialFailed) true /\
  isDialFailure (Some quicDialFailed) = true /\
  retriesOf (edgeAddrHandler st) 0 < maxRetries (edgeAddrHandler st) /\
  In r (Serve e 0 st) /\
  retry.ReachedMaxRetries (BackoffHandler (slotFallback (fst r))) = true /\
  leavesProtocolAlone st r.
Proof.
  cbv zeta.
  assert (Hbelow : retriesOf (edgeAddrHandler
                                (slotState (slotOn QUIC false 2) (NewIPAddrFallback 3))) 0
                   < maxRetries (edgeAddrHandler
                                   (slotState (slotOn QUIC false 2) (NewIPAddrFallback 3))))
    by (vm_compute; reflexivity).
  assert (Hin : In (mkState (setRetries (NewIPAddrFallback 3) 0 1) (slotOn QUIC false 3)
                            (Some false) [SendDisconnect 0; SendReconnect 0],
                    Some quicDialFailed)
                   (Serve (attempt (fails quicDialFailed true) nobodyConnected timerOnly) 0
                          (slotState (slotOn QUIC false 2) (NewIPAddrFallback 3))))
    by (left; reflexivity).
  split; [reflexivity |]. split; [reflexivity |]. split; [reflexivity |].
  split; [exact Hbelow |]. split; [exact Hin |]. split; [reflexivity |].
  exact (proj1 (Serve_dial_failure_below_ceiling
                  (attempt (fails quicDialFailed true) nobodyConnected timerOnly) 0
                  (slotState (slotOn QUIC false 2) (NewIPAddrFallback 3))
                  quicDialFailed true _ eq_refl eq_refl eq_refl Hbelow Hin)).
Defined.

Lemma Serve_terminal_errors_witness :
  let e := attempt (fails DupConnRegisterTunnelError false) nobodyConnected timerOnly in
  let st := slotState (slotOn QUIC false 2) (setRetries (NewIPAddrFallback 3) 0 2) in
  let r := (mkState (setRetries (NewIPAddrFallback 3) 0 2) (slotOn QUIC false 3)
                    (Some false) [SendDisconnect 0; SendReconnect 0],
            Some DupConnRegisterTunnelError) in
  GetAddr e = None /\
  result (served e) = returns (Some DupConnRegisterTunnelError) false /\
  isTerminal DupConnRegisterTunnelError = true /\
  In r (Serve e 0 st) /\
  edgeAddrHandler (fst r) = edgeAddrHandler st.
Proof.
  cbv zeta.
  assert (Hin : In (mkState (setRetries (NewIPAddrFallback 3) 0 2) (slotOn QUIC false 3)
                            (Some false) [SendDisconnect 0; SendReconnect 0],
                    Some DupConnRegisterTunnelError)
                   (Serve (attempt (fails DupConnRegisterTunnelError false)
                                   nobodyConnected timerOnly) 0
                          (slotState (slotOn QUIC false 2)
                                     (setRetries (NewIPAddrFallback 3) 0 2))))
    by (left; reflexivity).
  split; [reflexivity |]. split; [reflexivity |]. split; [reflexivity |].
  split; [exact Hin |].
  exact (proj2 (Serve_terminal_errors
                  (attempt (fails DupConnRegisterTunnelError false)
                           nobodyConnected timerOnly) 0
                  (slotState (slotOn QUIC false 2) (setRetries (NewIPAddrFallback 3) 0 2))
                  (Some DupConnRegisterTunnelError) false _
                  eq_refl eq_refl eq_refl Hin)).
Defined.

Lemma Serve_rotates_only_when_classified_witness :
  let e := attempt (fails (ReconnectSignal 250) false) nobodyConnected timerOnly in
  let st := slotState (slotOn QUIC false 0) (NewIPAddrFallback 3) in
  asksNewAddress (fst (snd (serveTunnel (served e) (stack e) 0 st))) = false /\
  Serve (withGetDifferentAddr e (Some (errorString "no free edge addresses left"))) 0 st
  = Serve e 0 st.
Proof.
  cbv zeta. split; [reflexivity |].
  exact (proj1 (Serve_rotates_only_when_classified
                  (attempt (fails (ReconnectSignal 250) false) nobodyConnected timerOnly)
                  0 (slotState (slotOn QUIC false 0) (NewIPAddrFallback 3))
                  (Some (errorString "no free edge addresses left")) eq_refl)).
Defined.

Lemma Serve_pool_errors_witness :
  let e := withGetDifferentAddr
             (attempt (fails quicDialFailed true) nobodyConnected timerOnly)
             (Some (errorString "no free edge addresses left")) in
  let st := slotState (slotOn QUIC false 0) (NewIPAddrFallback 3) in
  GetAddr e = None /\
  GetDifferentAddr e = Some (errorString "no free edge addresses left") /\
  asksNewAddress (fst (snd (serveTunnel (served e) (stack e) 0 st))) = true /\
  exists st' : state ipAddrFallback,
    Serve e 0 st = [(st', Some (errorString "no free edge addresses left"))] /\
    edgeAddrHandler st'
    = fst (ShouldGetNewAddress (edgeAddrHandler st) 0
             (fst (snd (serveTunnel (served e) (stack e) 0 st)))) /\
    occurrences isSendDisconnect (events st')
    = S (occurrences isSendDisconnect (events st)) /\
    ~ In (SendReconnect 0) (skipn (length (events st)) (events st')).
Proof.
  cbv zeta.
  split; [reflexivity |]. split; [reflexivity |]. split; [reflexivity |].
  exact (proj2 (Serve_pool_errors
                  (withGetDifferentAddr
                     (attempt (fails quicDialFailed true) nobodyConnected timerOnly)
                     (Some (errorString "no free edge addresses left")))
                  0 (slotState (slotOn QUIC false 0) (NewIPAddrFallback 3))
                  (errorString "no free edge addresses left"))
               eq_refl eq_refl eq_refl).
Defined.

(** ** Serve returns *)

Section ServeReturns.
Context {H S : Type} `{EdgeAddrHandler H} `{ProtocolSelector S}.


End ServeReturns.


(** ** The transports *)

Section TransportFacts.
Import edgediscovery.

(** A failed TCP/TLS dial on an HTTP/2 slot: [serveConnection] returns the
    [DialError] of [DialEdge], dialled with the 15 s timeout, without the
    connection ever being reported connected; [serveTunnel] returns it as
    retryable and leaves the backoff as it was; and the classifier asks for
    a new address and reports a connectivity error. *)
Theorem serveConnection_dial_failure {H : Type} (t : Transports) (stack : string)
    (connIndex : Z) (st : state H) (f : ipAddrFallback) (err : error) :
  snd (DialEdge (network t) (15 * 1000000000) (edgeTCP t) (edgeBindAddr t)) = Some err ->
  serveConnection_switch t HTTP2 = {| connects := false; result := returns (Some err) true |} /\
  snd (serveTunnel (serveConnection_switch t HTTP2) stack connIndex st) = (Some err, true) /\
  slotFallback (fst (serveTunnel (serveConnection_switch t HTTP2) stack connIndex st))
  = slotFallback st /\
  exists reached : bool,
    snd (ShouldGetNewAddress f connIndex (Some err))
    = (true, Some (ConnectivityError reached)).
Proof.
  intros Hfail.
  assert (Hdial : exists cause, err = DialError cause).
  { revert Hfail. unfold DialEdge, handshake, newDialError.
    destruct (if hasDialContext (network t) then _ else _) as [dialErr |]; simpl.
    - intros [= <-]. eexists. reflexivity.
    - destruct (tlsHandshake (network t) _) as [tlsErr |]; simpl; [| discriminate].
      intros [= <-]. eexists. reflexivity. }
  assert (Hswitch : serveConnection_switch t HTTP2
                    = {| connects := false; result := returns (Some err) true |}).
  { unfold serveConnection_switch, dialTimeout.
    destruct (DialEdge (network t) (15 * 1000000000) (edgeTCP t) (edgeBindAddr t))
      as [conn dialErr].
    simpl in Hfail. subst dialErr. reflexivity. }
  destruct Hdial as [cause ->].
  split; [exact Hswitch |]. rewrite Hswitch.
  split; [reflexivity | split; [reflexivity |]].
  simpl. destruct (_ <=? _); eexists; reflexivity.
Qed.

Lemma serveConnection_dial_failure_witness :
  let t := transportsOver (unreachableEdge (errorString "connect: network is unreachable"))
                          false None in
  snd (DialEdge (network t) (15 * 1000000000) (edgeTCP t) (edgeBindAddr t))
  = Some (DialError (withMessage (errorString "connect: network is unreachable")
                                 "DialContext error")) /\
  snd (serveTunnel (serveConnection_switch t HTTP2) "" 0
         (slotState (slotOn HTTP2 true 1) (NewIPAddrFallback 3)))
  = (Some (DialError (withMessage (errorString "connect: network is unreachable")
                                  "DialContext error")), true).
Proof.
  cbv zeta. split; [reflexivity |].
  destruct (serveConnection_dial_failure
              (transportsOver (unreachableEdge (errorString "connect: network is unreachable"))
                              false None)
              "" 0 (slotState (slotOn HTTP2 true 1) (NewIPAddrFallback 3))
              (NewIPAddrFallback 3) _ eq_refl) as (_ & Hret & _).
  exact Hret.
Defined.

End TransportFacts.

Section PostQuantumFacts.
Context {S : Type} `{ProtocolSelector S}.

(** Post-quantum strict mode on HTTP/2 is a dead end for the slot.  Once the
    edge has been dialled, [serveHTTP2] refuses to serve: the connection is
    never reported connected and the error is an [unrecoverableError], which
    [serveTunnel] returns as not retryable.  [Serve] then leaves the
    classifier, the protocol and [inFallback] of the slot as they were: the
    slot stays on HTTP/2. *)
Theorem serveHTTP2_post_quantum_strict (t : Transports) (e : Inputs S)
    (connIndex : Z) (st : state ipAddrFallback)
    (r : state ipAddrFallback * option error) :
  PostQuantumStrict t = true ->
  snd (edgediscovery.DialEdge (network t) dialTimeout (edgeTCP t) (edgeBindAddr t)) = None ->
  protocol (slotFallback st) = HTTP2 ->
  GetAddr e = None ->
  In r (Serve (onTransports e t (slotFallback st)) connIndex st) ->
  connects (serveConnection_switch t HTTP2) = false /\
  snd (serveTunnel (serveConnection_switch t HTTP2) (stack e) connIndex st)
  = (Some (unrecoverableError
             (errorString "HTTP/2 transport does not support post-quantum")), false) /\
  leavesProtocolAlone st r /\
  inFallback (slotFallback (fst r)) = inFallback (slotFallback st) /\
  edgeAddrHandler (fst r) = edgeAddrHandler st.
Proof.
  intros Hstrict Hdial Hproto Hget Hin.
  assert (Hswitch : serveConnection_switch t HTTP2
                    = {| connects := false;
                         result := returns
                           (Some (unrecoverableError
                                    (errorString
                                       "HTTP/2 transport does not support post-quantum")))
                           false |}).
  { unfold serveConnection_switch, serveHTTP2. rewrite Hstrict.
    destruct (edgediscovery.DialEdge (network t) dialTimeout (edgeTCP t) (edgeBindAddr t))
      as [conn dialErr].
    simpl in Hdial. subst dialErr. reflexivity. }
  set (e' := onTransports e t (slotFallback st)) in *.
  assert (Hserved : served e' = serveConnection_switch t HTTP2)
    by (unfold e', onTransports; simpl; now rewrite Hproto).
  assert (Hget' : GetAddr e' = None) by exact Hget.
  assert (HT : snd (serveTunnel (served e') (stack e') connIndex st)
               = (Some (unrecoverableError
                          (errorString "HTTP/2 transport does not support post-quantum")),
                  false))
    by (rewrite Hserved, Hswitch; reflexivity).
  destruct (Serve_without_picker e' connIndex st r Hget') as (Halone & Hkeep & Hhandler).
  { cbv zeta. rewrite HT. reflexivity. }
  { exact Hin. }
  rewrite HT in Hhandler. simpl in Hhandler.
  rewrite Hserved, Hswitch in Hkeep.
  split; [now rewrite Hswitch |].
  split; [rewrite Hswitch; reflexivity |].
  split; [exact Halone |].
  split; [exact (Hkeep eq_refl) | exact Hhandler].
Qed.

End PostQuantumFacts.

Lemma serveHTTP2_post_quantum_strict_witness :
  let t := transportsOver reachableEdge true None in
  let e := attempt (fails endOfStream false) nobodyConnected timerOnly in
  let st := slotState (slotOn HTTP2 false 2) (NewIPAddrFallback 3) in
  let r := (mkState (NewIPAddrFallback 3) (slotOn HTTP2 false 3) (Some false)
                    [SendDisconnect 0; SendReconnect 0],
            Some (unrecoverableError
                    (errorString "HTTP/2 transport does not support post-quantum"))) in
  PostQuantumStrict t = true /\
  snd (edgediscovery.DialEdge (network t) dialTimeout (edgeTCP t) (edgeBindAddr t)) = None /\
  protocol (slotFallback st) = HTTP2 /\
  GetAddr e = None /\
  In r (Serve (onTransports e t (slotFallback st)) 0 st) /\
  leavesProtocolAlone st r.
Proof.
  cbv zeta.
  assert (Hin : In (mkState (NewIPAddrFallback 3) (slotOn HTTP2 false 3) (Some false)
                            [SendDisconnect 0; SendReconnect 0],
                    Some (unrecoverableError
                            (errorString "HTTP/2 transport does not support post-quantum")))
                   (Serve (onTransports
                             (attempt (fails endOfStream false) nobodyConnected timerOnly)
                             (transportsOver reachableEdge true None)
                             (slotFallback (slotState (slotOn HTTP2 false 2)
                                                      (NewIPAddrFallback 3))))
                          0 (slotState (slotOn HTTP2 false 2) (NewIPAddrFallback 3))))
    by (left; reflexivity).
  split; [reflexivity |]. split; [reflexivity |]. split; [reflexivity |].
  split; [reflexivity |]. split; [exact Hin |].
  destruct (serveHTTP2_post_quantum_strict
              (transportsOver reachableEdge true None)
              (attempt (fails endOfStream false) nobodyConnected timerOnly)
              0 (slotState (slotOn HTTP2 false 2) (NewIPAddrFallback 3)) _
              eq_refl eq_refl eq_refl eq_refl Hin) as (_ & _ & Halone & _).
  exact Halone.
Defined.

(** ** listenReconnect *)

Lemma listens_earliest (sig : Signals) (c : ListenCase) :
  listens sig c = true <->
  exists t : Z,
    listenTime sig c = Some t /\
    forall (other : ListenCase) (u : Z), listenTime sig other = Some u -> t <= u.
Proof.
  unfold listens. split.
  - destruct (listenTime sig c) as [t |] eqn:Hc; [| discriminate].
    intros Hall. exists t. split; [reflexivity |].
    intros other u Hother.
    rewrite forallb_forall in Hall.
    assert (Hin : In other listenCases) by (destruct other; simpl; auto).
    specialize (Hall other Hin). rewrite Hother in Hall. lia.
  - intros (t & -> & Hmin). apply forallb_forall. intros other _.
    destruct (listenTime sig other) as [u |] eqn:Hother; [| reflexivity].
    specialize (Hmin other u Hother). lia.
Qed.

(** [listenReconnect] breaks a served connection only on a reconnect
    signal.  It returns an error exactly when the signal is ready no later
    than the graceful shutdown and the end of the context, and the error is
    then the signal itself; otherwise it returns nil, and it returns nil
    only when the shutdown or the end of the context is ready no later than
    everything else. *)
Theorem listenReconnect_returns (sig : Signals) (reconnect : error)
    (r : option error) :
  In r (listenReconnect sig reconnect) <->
  (r = Some reconnect /\
   exists t : Z,
     reconnectAt sig = Some t /\
     (forall u : Z, gracefulShutdownAt sig = Some u -> t <= u) /\
     (forall u : Z, ctxDoneAt sig = Some u -> t <= u)) \/
  (r = None /\
   exists t : Z,
     (gracefulShutdownAt sig = Some t \/ ctxDoneAt sig = Some t) /\
     (forall u : Z, reconnectAt sig = Some u -> t <= u) /\
     (forall u : Z, gracefulShutdownAt sig = Some u -> t <= u) /\
     (forall u : Z, ctxDoneAt sig = Some u -> t <= u)).
Proof.
  unfold listenReconnect. rewrite in_map_iff. split.
  - intros (c & <- & Hc). apply filter_In in Hc as [_ Hc].
    apply listens_earliest in Hc as (t & Ht & Hmin).
    destruct c; simpl in Ht; [left | right | right];
      (split; [reflexivity |]); exists t.
    + split; [exact Ht |].
      split; intros u Hu;
        [apply (Hmin gracefulShutdownCh) | apply (Hmin listen_ctx_Done)]; exact Hu.
    + split; [now left |].
      repeat split; intros u Hu;
        [apply (Hmin reconnectCh) | apply (Hmin gracefulShutdownCh)
         | apply (Hmin listen_ctx_Done)]; exact Hu.
    + split; [now right |].
      repeat split; intros u Hu;
        [apply (Hmin reconnectCh) | apply (Hmin gracefulShutdownCh)
         | apply (Hmin listen_ctx_Done)]; exact Hu.
  - assert (Hready : forall c : ListenCase,
              listens sig c = true -> In c (List.filter (listens sig) listenCases)).
    { intros c Hc. apply filter_In. split; [destruct c; simpl; auto | exact Hc]. }
    intros [(-> & t & Ht & Hg & Hc) | (-> & t & [Ht | Ht] & Hr & Hg & Hc)].
    + exists reconnectCh. split; [reflexivity |].
      apply Hready, listens_earliest. exists t. split; [exact Ht |].
      intros other u Hu. destruct other; simpl in Hu; auto.
      rewrite Ht in Hu. injection Hu as <-. lia.
    + exists gracefulShutdownCh. split; [reflexivity |].
      apply Hready, listens_earliest. exists t. split; [exact Ht |].
      intros other u Hu. destruct other; simpl in Hu; auto.
    + exists listen_ctx_Done. split; [reflexivity |].
      apply Hready, listens_earliest. exists t. split; [exact Ht |].
      intros other u Hu. destruct other; simpl in Hu; auto.
Qed.

Lemma listenReconnect_returns_witness :
  In None (listenReconnect shutdownFirst (ReconnectSignal 250)) /\
  ~ In (Some (ReconnectSignal 250)) (listenReconnect shutdownFirst (ReconnectSignal 250)).
Proof.
  split.
  - apply (proj2 (listenReconnect_returns shutdownFirst (ReconnectSignal 250) None)).
    right. split; [reflexivity |]. exists 3.
    split; [left; reflexivity |].
    repeat split; intros u [= <-]; lia.
  - intros Hin.
    apply (proj1 (listenReconnect_returns shutdownFirst (ReconnectSignal 250) _)) in Hin
      as [(_ & t & [= <-] & Hg & _) | ([=] & _)].
    specialize (Hg 3 eq_refl). lia.
Defined.

Lemma isQuicBroken_chain_witness :
  isQuicBroken (Some (withMessage (EdgeQuicDialError IdleTimeoutError) "dial")) = true.
Proof.
  apply (proj2 (isQuicBroken_chain
                  (withMessage (EdgeQuicDialError IdleTimeoutError) "dial"))).
  left. simpl. right. right. left. reflexivity.
Defined.

(** ** Exhaustion *)

Section Exhaustion.
Context {S : Type} `{ProtocolSelector S}.

(** Exhaustion moves the slot to the fallback protocol.  When serving ends
    with a dial failure while the slot's rotation counter has reached
    [maxRetries], the backoff reaches its retry ceiling with this attempt,
    no slot has connected with the selected protocol, and the selector
    reports a fallback the slot is not on, then [Serve], woken by its timer,
    returns the error of the attempt with the slot on the fallback protocol,
    in fallback, with a reset backoff, the switch announced, and the
    rotation counter of the slot back at zero. *)
Theorem Serve_exhaustion_falls_back (e : Inputs S) (connIndex : Z)
    (st : state ipAddrFallback) (err : error) (recoverable : bool) (fb : Protocol) :
  GetAddr e = None ->
  GetDifferentAddr e = None ->
  served e = {| connects := false; result := returns (Some err) recoverable |} ->
  isDialFailure (Some err) = true ->
  maxRetries (edgeAddrHandler st) <= retriesOf (edgeAddrHandler st) connIndex ->
  retry.GetMaxBackoffDuration (BackoffHandler (slotFallback st)) = true ->
  retry.ReachedMaxRetries (retry.BackoffTimer (BackoffHandler (slotFallback st))) = true ->
  HasConnectedWith e (Current (selector e)) = false ->
  Fallback (selector e) = (fb, true) ->
  protocol (slotFallback st) <> fb ->
  selectReady (signals e) = [backoffTimer] ->
  exists st' : state ipAddrFallback,
    Serve e connIndex st = [(st', Some err)] /\
    slotFallback st'
    = {| BackoffHandler :=
           retry.ResetNow (retry.BackoffTimer (BackoffHandler (slotFallback st)));
         protocol := fb;
         inFallback := true |} /\
    retriesOf (edgeAddrHandler st') connIndex = 0 /\
    In (InfoSwitchingToFallback fb) (events st').
Proof.
  intros Hget Hdiff Hserved Hdial Hceil Hmore Hretry Hnobody Hfb Hne Hready.
  set (st0 := mkState (edgeAddrHandler st) (slotFallback st) newBooleanFuse (events st)).
  assert (HT : serveTunnel (served e) (stack e) connIndex st0
               = (mkState (edgeAddrHandler st) (slotFallback st) newBooleanFuse
                          (emit (SendDisconnect connIndex) (events st)),
                  (Some err, match err with DialError _ => true | _ => false end))).
  { rewrite Hserved. unfold serveTunnel, serveConnection.
    destruct err; simpl in Hdial; try discriminate; reflexivity. }
  assert (HC : handlerShouldGetNewAddress (edgeAddrHandler st) connIndex (Some err)
               = (setRetries (edgeAddrHandler st) connIndex 0,
                  (true, Some (ConnectivityError true)))).
  { change (ShouldGetNewAddress (edgeAddrHandler st) connIndex (Some err)
            = (setRetries (edgeAddrHandler st) connIndex 0,
               (true, Some (ConnectivityError true)))).
    destruct err; simpl in Hdial; try discriminate; simpl;
      destruct (Z.leb_spec (maxRetries (edgeAddrHandler st))
                           (retriesOf (edgeAddrHandler st) connIndex));
      try lia; reflexivity. }
  pose proof (Serve_attempt_shape e connIndex st) as Hshape. cbv zeta in Hshape.
  fold st0 in Hshape.
  rewrite HT in Hshape. cbn [fst snd] in Hshape.
  rewrite HC in Hshape. cbn [fst snd slotFallback slotFuse events] in Hshape.
  rewrite Hget, Hdiff, Hmore in Hshape.
  unfold Serve. rewrite Hshape, Hready. cbn [map].
  set (log := emit (SendReconnect connIndex) (emit (SendDisconnect connIndex) (events st))).
  set (counted := mkProtocolFallback
                    (retry.BackoffTimer (BackoffHandler (slotFallback st)))
                    (protocol (slotFallback st)) (inFallback (slotFallback st))).
  assert (Hpick : selectNextProtocol log counted (selector e) (Some err)
                  = (emit (InfoSwitchingToFallback fb)
                          (if isQuicBroken (Some err)
                           then emit WarnUDPEgressBlocked log else log),
                     fallback counted fb, true)).
  { unfold selectNextProtocol. rewrite Hfb.
    change (BackoffHandler counted)
      with (retry.BackoffTimer (BackoffHandler (slotFallback st))).
    rewrite Hretry. simpl.
    destruct (decide (protocol (slotFallback st) = fb)); [contradiction | reflexivity]. }
  eexists. split.
  - unfold Serve_select, withFallback. cbn [negb slotFallback events edgeAddrHandler slotFuse].
    rewrite Hnobody. fold counted. fold log. rewrite Hpick. reflexivity.
  - cbn [edgeAddrHandler slotFallback events]. split; [reflexivity |].
    split; [apply retriesOf_setRetries |].
    unfold emit at 1. apply in_or_app. right. now left.
Qed.

End Exhaustion.

Lemma Serve_exhaustion_falls_back_witness :
  let e := attempt (fails quicDialFailed true) nobodyConnected timerOnly in
  let st := slotState (slotOn QUIC false 2) (setRetries (NewIPAddrFallback 3) 0 3) in
  maxRetries (edgeAddrHandler st) <= retriesOf (edgeAddrHandler st) 0 /\
  retry.ReachedMaxRetries (retry.BackoffTimer (BackoffHandler (slotFallback st))) = true /\
  protocol (slotFallback st) <> HTTP2 /\
  exists st' : state ipAddrFallback,
    Serve e 0 st = [(st', Some quicDialFailed)] /\
    slotFallback st' = slotOn HTTP2 true 0 /\
    retriesOf (edgeAddrHandler st') 0 = 0 /\
    In (InfoSwitchingToFallback HTTP2) (events st').
Proof.
  cbv zeta.
  assert (Hceil : maxRetries (edgeAddrHandler
                                (slotState (slotOn QUIC false 2)
                                           (setRetries (NewIPAddrFallback 3) 0 3)))
                  <= retriesOf (edgeAddrHandler
                                  (slotState (slotOn QUIC false 2)
                                             (setRetries (NewIPAddrFallback 3) 0 3))) 0)
    by (vm_compute; discriminate).
  assert (Hne : protocol (slotFallback
                            (slotState (slotOn QUIC false 2)
                                       (setRetries (NewIPAddrFallback 3) 0 3))) <> HTTP2)
    by (simpl; discriminate).
  split; [exact Hceil |]. split; [reflexivity |]. split; [exact Hne |].
  exact (Serve_exhaustion_falls_back
           (attempt (fails quicDialFailed true) nobodyConnected timerOnly) 0
           (slotState (slotOn QUIC false 2) (setRetries (NewIPAddrFallback 3) 0 3))
           quicDialFailed true HTTP2
           eq_refl eq_refl eq_refl eq_refl Hceil eq_refl eq_refl eq_refl eq_refl Hne
           eq_refl).
Defined.

(** A failed QUIC dial.  [serveQUIC] dials with an initial packet size of
    1232 on an IPv4 path and 1252 otherwise and returns the dial error
    flagged recoverable, without the connection ever being reported
    connected; [serveTunnel] nevertheless returns an [EdgeQuicDialError] as
    not retryable and leaves the backoff as it was, and the classifier asks
    for a new address with a connectivity error: whether the slot then
    considers the fallback is decided by the rotation ceiling alone. *)
Theorem serveQUIC_dial_failure {H : Type} (t : Transports) (stack : string)
    (connIndex : Z) (st : state H) (f : ipAddrFallback) (cause : error) :
  curvePreference t = None ->
  DialQuic t (if Is4 t then 1232 else 1252) = Some (EdgeQuicDialError cause) ->
  serveQUIC t = (false, (Some (EdgeQuicDialError cause), true)) /\
  snd (serveTunnel (serveConnection_switch t QUIC) stack connIndex st)
  = (Some (EdgeQuicDialError cause), false) /\
  slotFallback (fst (serveTunnel (serveConnection_switch t QUIC) stack connIndex st))
  = slotFallback st /\
  snd (ShouldGetNewAddress f connIndex (Some (EdgeQuicDialError cause)))
  = (true, Some (ConnectivityError (maxRetries f <=? retriesOf f connIndex))).
Proof.
  intros Hcurve Hdial.
  assert (Hquic : serveQUIC t = (false, (Some (EdgeQuicDialError cause), true))).
  { unfold serveQUIC, initialPacketSize. now rewrite Hcurve, Hdial. }
  split; [exact Hquic |].
  unfold serveConnection_switch. rewrite Hquic.
  split; [reflexivity | split; [reflexivity |]].
  simpl. now destruct (maxRetries f <=? retriesOf f connIndex).
Qed.

Lemma serveQUIC_dial_failure_witness :
  let t := {| network := reachableEdge;
              edgeTCP := "198.41.192.7:7844";
              Is4 := true;
              edgeBindAddr := None;
              PostQuantumStrict := false;
              curvePreference := None;
              DialQuic := fun size =>
                if size =? 1232 then Some quicDialFailed else None;
              NewTunnelConnection := None;
              controlStreamConnects := true;
              errGroupWait := None |} in
  curvePreference t = None /\
  DialQuic t (if Is4 t then 1232 else 1252) = Some quicDialFailed /\
  snd (serveTunnel (serveConnection_switch t QUIC) "" 0
         (slotState (slotOn QUIC false 0) (NewIPAddrFallback 3)))
  = (Some quicDialFailed, false).
Proof.
  cbv zeta. split; [reflexivity | split; [reflexivity |]].
  match goal with
  | |- snd (serveTunnel (serveConnection_switch ?t QUIC) _ _ ?st) = _ =>
      destruct (serveQUIC_dial_failure t "" 0 st (NewIPAddrFallback 3)
                  (errorString "timeout: handshake did not complete in time")
                  eq_refl eq_refl) as (_ & Hret & _)
  end.
  exact Hret.
Defined.
